(** * py-forestly: the sparkline code generator

    A shallow embedding of [planning/sparkline_point.py] and the properties
    of [sparkline_point_js] and its nested helper [to_rgba].

    Conventions of the embedding.
    - A Python [str] is a Rocq [string]; a character stands for the code
      point of the same number, so the model covers the strings whose code
      points are below 256.
    - A Python [float] is a binary64 primitive float, an [int] is a [Z].
    - A column of the frame is an [Int64], a [Float64] or a [Utf8] column,
      and its cells reach Python as [int], [float] and [str] objects.
    - A parameter typed [str | list[str]] is a two-constructor sum, and
      [isinstance(v, str)] is a match on it.
    - A raised exception is the left injection of a sum. *)

From Stdlib Require Import ZArith NArith List Bool Lia.
From Stdlib Require Import Ascii String DecimalString.
From Stdlib Require Import PrimFloat FloatOps SpecFloat FloatAxioms.
Import ListNotations.

Set Warnings "-inexact-float".

Local Open Scope string_scope.
Local Open Scope Z_scope.

(** ** Python built-ins on strings *)

Module Py.

(** The double quote, written by its code point. *)
Definition dq : string := String (ascii_of_nat 34) EmptyString.

(** The line feed. *)
Definition nl : string := String (ascii_of_nat 10) EmptyString.

(** [f'"{s}"'] *)
Definition quoted (s : string) : string := dq ++ s ++ dq.

Definition code (c : ascii) : N := N_of_ascii c.

Definition between (lo hi : N) (c : ascii) : bool :=
  ((lo <=? code c) && (code c <=? hi))%N.

(** [str.isspace] on one character: the code points below 256 with the
    White_Space property or bidirectional type WS, B or S. *)
Definition isspace (c : ascii) : bool :=
  between 9 13 c || between 28 32 c || between 133 133 c || between 160 160 c.

(** [str.lstrip()] *)
Fixpoint lstrip (s : string) : string :=
  match s with
  | EmptyString => EmptyString
  | String c s' => if isspace c then lstrip s' else s
  end.

(** [str.rstrip()] *)
Fixpoint rstrip (s : string) : string :=
  match s with
  | EmptyString => EmptyString
  | String c s' =>
      match rstrip s' with
      | EmptyString => if isspace c then EmptyString else String c EmptyString
      | r => String c r
      end
  end.

(** [str.strip()] *)
Definition strip (s : string) : string := rstrip (lstrip s).

(** [str.lower] on one character (code points below 256: the Latin
    capitals and the capitals of Latin-1 other than the multiplication
    sign). *)
Definition lower_char (c : ascii) : ascii :=
  if between 65 90 c || (between 192 222 c && negb (between 215 215 c))
  then ascii_of_N (code c + 32)
  else c.

(** [str.lower()] *)
Fixpoint lower (s : string) : string :=
  match s with
  | EmptyString => EmptyString
  | String c s' => String (lower_char c) (lower s')
  end.

(** [s.startswith(p)] *)
Definition startswith (s p : string) : bool := String.prefix p s.

(** [sep.join(l)] *)
Fixpoint join (sep : string) (l : list string) : string :=
  match l with
  | [] => EmptyString
  | [s] => s
  | s :: l' => s ++ sep ++ join sep l'
  end.

(** [s[i:j]] for [0 <= i <= j]. *)
Definition slice (i j : nat) (s : string) : string := substring i (j - i) s.

(** [''.join([c*2 for c in s])] *)
Fixpoint double_chars (s : string) : string :=
  match s with
  | EmptyString => EmptyString
  | String c s' => String c (String c (double_chars s'))
  end.

(** [str(n)] for an [int]. *)
Definition str_int (n : Z) : string := NilEmpty.string_of_int (Z.to_int n).

(** *** [int(s, 16)]

    CPython's [int] on a string with base 16: white space is skipped at
    both ends, then an optional sign, an optional [0x] or [0X] prefix with
    at most one underscore after it, then hexadecimal digits with single
    underscores allowed between digits.  [None] stands for [ValueError]. *)

(** The white space [int] skips: the C locale's, and the non-ASCII
    characters that are white space (they are turned into blanks before
    the parse).  The ASCII separators 28 to 31 are not skipped. *)
Definition int_space (c : ascii) : bool :=
  between 9 13 c || between 32 32 c || between 133 133 c || between 160 160 c.

Definition hex_value (c : ascii) : option Z :=
  if between 48 57 c then Some (Z.of_N (code c) - 48)
  else if between 97 102 c then Some (Z.of_N (code c) - 87)
  else if between 65 70 c then Some (Z.of_N (code c) - 55)
  else None.

Definition is_underscore (c : ascii) : bool := between 95 95 c.

Fixpoint int_lskip (s : string) : string :=
  match s with
  | EmptyString => EmptyString
  | String c s' => if int_space c then int_lskip s' else s
  end.

Fixpoint int_rskip (s : string) : string :=
  match s with
  | EmptyString => EmptyString
  | String c s' =>
      match int_rskip s' with
      | EmptyString => if int_space c then EmptyString else String c EmptyString
      | r => String c r
      end
  end.

(** The digits after the first one: [acc] is the value so far and
    [after_digit] tells whether the previous character was a digit. *)
Fixpoint hex_digits (acc : Z) (after_digit : bool) (s : string) : option Z :=
  match s with
  | EmptyString => if after_digit then Some acc else None
  | String c s' =>
      match hex_value c with
      | Some d => hex_digits (16 * acc + d) true s'
      | None =>
          if is_underscore c && after_digit then hex_digits acc false s'
          else None
      end
  end.

(** Sign and prefix already removed: at least one digit, no leading
    underscore. *)
Definition hex_body (s : string) : option Z :=
  match s with
  | EmptyString => None
  | String c s' =>
      match hex_value c with
      | Some d => hex_digits d true s'
      | None => None
      end
  end.

Definition hex_prefixed (s : string) : option Z :=
  match s with
  | String c0 (String c1 s') =>
      if between 48 48 c0 && (between 120 120 c1 || between 88 88 c1) then
        match s' with
        | String u s'' => if is_underscore u then hex_body s'' else hex_body s'
        | EmptyString => hex_body s'
        end
      else hex_body s
  | _ => hex_body s
  end.

Definition int16 (s : string) : option Z :=
  match int_rskip (int_lskip s) with
  | String c s' =>
      if between 43 43 c then hex_prefixed s'
      else if between 45 45 c then option_map Z.opp (hex_prefixed s')
      else hex_prefixed (String c s')
  | EmptyString => None
  end.

End Py.

(** ** Python numbers and their [str] *)

Module PyNum.

(** *** [repr] of a float

    CPython prints a finite float with the shortest decimal digit string
    that reads back as the same float, the closest to the float's value
    among the shortest.  The float is [m * 2^e]; every quantity below is
    an exact integer ratio. *)

(** The rounding interval of [m * 2^e], over the common denominator [den]
    and in units of a quarter of the last place: value, lower and upper
    end. *)
Record interval := {
  i_val : Z; i_lo : Z; i_hi : Z; i_den : Z;
  i_closed : bool (* ends belong to the interval: even significand *)
}.

Definition rounding_interval (m : positive) (e : Z) : interval :=
  let M := Z.pos m in
  let num := if 2 <=? e then 2 ^ (e - 2) else 1 in
  let den := if 2 <=? e then 1 else 2 ^ (2 - e) in
  let below := if (M =? 2 ^ 52) && (-1074 <? e) then 1 else 2 in
  {| i_val := 4 * M * num;
     i_lo := (4 * M - below) * num;
     i_hi := (4 * M + 2) * num;
     i_den := den;
     i_closed := Z.even M |}.

(** [v < 10^k] for [v = r / s]. *)
Definition below_pow10 (r s k : Z) : bool :=
  if 0 <=? k then r <? 10 ^ k * s else r * 10 ^ (- k) <? s.

(** The least [k] from [k0] on with [v < 10^k]. *)
Fixpoint decimal_point (fuel : nat) (r s k : Z) : Z :=
  match fuel with
  | O => k
  | S fuel' => if below_pow10 r s k then k else decimal_point fuel' r s (k + 1)
  end.

(** The [n]-digit decimal nearest to the value among those of the
    rounding interval, if there is one; [k] is the decimal point. *)
Definition candidate (iv : interval) (k n : Z) : option Z :=
  let P := 10 ^ Z.max (k - n) 0 in
  let Q := 10 ^ Z.max (n - k) 0 in
  let A := i_val iv * Q in
  let B := i_den iv * P in
  let q := A / B in
  let r := A mod B in
  let inside c :=
    let C := c * B in
    if i_closed iv then (i_lo iv * Q <=? C) && (C <=? i_hi iv * Q)
    else (i_lo iv * Q <? C) && (C <? i_hi iv * Q) in
  let down := inside q in
  let up := negb (r =? 0) && inside (q + 1) in
  match down, up with
  | true, false => Some q
  | false, true => Some (q + 1)
  | true, true =>
      if 2 * r <? B then Some q
      else if B <? 2 * r then Some (q + 1)
      else Some (if Z.even q then q else q + 1)
  | false, false => None
  end.

(** The first length [n], [n + 1], ... that has a candidate. *)
Fixpoint shortest (fuel : nat) (iv : interval) (k n : Z) : Z * Z :=
  match fuel with
  | O => (i_val iv * 10 ^ Z.max (n - k) 0 / (i_den iv * 10 ^ Z.max (k - n) 0), n)
  | S fuel' =>
      match candidate iv k n with
      | Some c => (c, n)
      | None => shortest fuel' iv k (n + 1)
      end
  end.

Fixpoint drop_zeros (fuel : nat) (c : Z) : Z :=
  match fuel with
  | O => c
  | S fuel' => if (c mod 10 =? 0) && negb (c =? 0) then drop_zeros fuel' (c / 10) else c
  end.

Fixpoint zeros (n : nat) : string :=
  match n with
  | O => EmptyString
  | S n' => String "0" (zeros n')
  end.

(** Digits [D] and decimal point [decpt]: the value is [0.D * 10^decpt]. *)
Definition digits_of (m : positive) (e : Z) : string * Z :=
  let iv := rounding_interval m e in
  let k0 := (Z.log2 (Z.pos m) + e) * 30103 / 100000 - 1 in
  let k := decimal_point 6 (i_val iv) (i_den iv) k0 in
  let '(c, n) := shortest 17 iv k 1 in
  let len_c := Z.of_nat (String.length (Py.str_int c)) in
  (Py.str_int (drop_zeros 20 c), k + len_c - n).

(** The layout of [repr]: exponent form when [decpt] is outside
    [-3 .. 16], a [.0] added to an integer. *)
Definition layout (D : string) (decpt : Z) : string :=
  let nd := Z.of_nat (String.length D) in
  if (decpt <=? -4) || (16 <? decpt) then
    let ex := decpt - 1 in
    let mant :=
      match D with
      | String d EmptyString => D
      | String d rest => String d (String "." rest)
      | EmptyString => D
      end in
    let ex_digits := Py.str_int (Z.abs ex) in
    mant ++ "e" ++ (if ex <? 0 then "-" else "+")
         ++ (if Z.abs ex <? 10 then "0" else EmptyString) ++ ex_digits
  else if decpt <=? 0 then "0." ++ zeros (Z.to_nat (- decpt)) ++ D
  else if nd <=? decpt then D ++ zeros (Z.to_nat (decpt - nd)) ++ ".0"
  else substring 0 (Z.to_nat decpt) D ++ "."
       ++ substring (Z.to_nat decpt) (Z.to_nat (nd - decpt)) D.

(** [str(f)] and [repr(f)] for a float. *)
Definition str_float (f : float) : string :=
  match Prim2SF f with
  | S754_nan => "nan"
  | S754_infinity s => if s then "-inf" else "inf"
  | S754_zero s => if s then "-0.0" else "0.0"
  | S754_finite s m e =>
      let '(D, decpt) := digits_of m e in
      (if s then "-" else EmptyString) ++ layout D decpt
  end.

(** A number argument: Python accepts an [int] where the annotation says
    [float], and prints the two differently. *)
Inductive number : Type :=
  | Int (n : Z)
  | Float (f : float).

(** [str(v)] *)
Definition str (v : number) : string :=
  match v with
  | Int n => Py.str_int n
  | Float f => str_float f
  end.

(** *** The objects a column holds *)

(** A cell of a column as a Python object. *)
Inductive object : Type :=
  | OInt (n : Z)
  | OFloat (f : float)
  | OStr (s : string).

(** [type(o).__name__] *)
Definition type_name (o : object) : string :=
  match o with
  | OInt _ => "int"
  | OFloat _ => "float"
  | OStr _ => "str"
  end.

(** [float(n)]: the nearest float, ties to even. *)
Definition float_of_int (n : Z) : float :=
  SF2Prim (binary_normalize prec emax n 0 false).

(** [n < f] for an [int] and a [float]: the comparison of the exact
    values, false on a NaN. *)
Definition int_lt_float (n : Z) (f : float) : bool :=
  match Prim2SF f with
  | S754_nan => false
  | S754_infinity negative => negb negative
  | S754_zero _ => n <? 0
  | S754_finite negative m e =>
      let v := if negative then Z.neg m else Z.pos m in
      if 0 <=? e then n <? v * 2 ^ e else n * 2 ^ (- e) <? v
  end.

(** [f < n] for a [float] and an [int]. *)
Definition float_lt_int (f : float) (n : Z) : bool :=
  match Prim2SF f with
  | S754_nan => false
  | S754_infinity negative => negative
  | S754_zero _ => 0 <? n
  | S754_finite negative m e =>
      let v := if negative then Z.neg m else Z.pos m in
      if 0 <=? e then v * 2 ^ e <? n else v <? n * 2 ^ (- e)
  end.

End PyNum.

(** ** The data frame and the template *)

Module Pl.

(** A column: its dtype and its nullable cells.  [Int64] cells are in
    the range of 64-bit integers; [Utf8] stands for the columns whose
    cells are not numbers. *)
Inductive Series : Type :=
  | Int64 (cells : list (option Z))
  | Float64 (cells : list (option float))
  | Utf8 (cells : list (option string)).

(** A [polars.DataFrame]: named columns, in order. *)
Definition DataFrame : Type := list (string * Series).

(** [tbl.columns] *)
Definition columns (tbl : DataFrame) : list string := map fst tbl.

(** [tbl[col]]; [None] when polars raises for an unknown column. *)
Fixpoint getitem (tbl : DataFrame) (col : string) : option Series :=
  match tbl with
  | [] => None
  | (name, s) :: tbl' => if String.eqb name col then Some s else getitem tbl' col
  end.

(** The cells that are not null. *)
Fixpoint non_null {A : Type} (cells : list (option A)) : list A :=
  match cells with
  | [] => []
  | Some v :: cells' => v :: non_null cells'
  | None :: cells' => non_null cells'
  end.

(** [s.drop_nulls().to_list()] *)
Definition drop_nulls (s : Series) : list PyNum.object :=
  match s with
  | Int64 cells => map PyNum.OInt (non_null cells)
  | Float64 cells => map PyNum.OFloat (non_null cells)
  | Utf8 cells => map PyNum.OStr (non_null cells)
  end.

End Pl.

Module Tpl.

(** [string.Template]: a template text is a sequence of literal pieces
    and placeholders, [$name] or [${name}], where a name is an ASCII
    letter or underscore followed by ASCII letters, digits and
    underscores. *)
Inductive chunk : Type :=
  | Text (s : string)
  | Placeholder (braced : bool) (name : string).

Definition Template : Type := list chunk.

Definition is_dollar (c : ascii) : bool := Py.between 36 36 c.

(** The first character of a name: [[_a-z]], case ignored. *)
Definition ident_start (c : ascii) : bool :=
  Py.between 95 95 c || Py.between 97 122 c || Py.between 65 90 c.

(** The later characters of a name: [[_a-z0-9]], case ignored. *)
Definition ident_char (c : ascii) : bool :=
  ident_start c || Py.between 48 57 c.

(** Where the scan of the template text stands. *)
Inductive state : Type :=
  | InText
  | AfterDollar
  | InName (name : string)
  | InBrace (name : string).

(** One more literal character in front of the chunks. *)
Definition literal (c : ascii) (t : Template) : Template :=
  match t with
  | Text s :: t' => Text (String c s) :: t'
  | _ => Text (String c EmptyString) :: t
  end.

Fixpoint literals (s : string) (t : Template) : Template :=
  match s with
  | EmptyString => t
  | String c s' => literal c (literals s' t)
  end.

(** The pattern of [string.Template], matched from left to right: after
    the delimiter, a second delimiter is the escape, a name is a
    placeholder, [{name}] is a braced placeholder, and anything else
    leaves the delimiter as it is.  The escape is recorded as the
    literal [$] that [safe_substitute] writes for it. *)
Fixpoint scan (st : state) (s : string) : Template :=
  match s with
  | EmptyString =>
      match st with
      | InText => []
      | AfterDollar => [Text "$"]
      | InName name => [Placeholder false name]
      | InBrace name => [Text ("${" ++ name)]
      end
  | String c s' =>
      let resume :=
        if is_dollar c then scan AfterDollar s' else literal c (scan InText s') in
      match st with
      | InText => resume
      | AfterDollar =>
          if is_dollar c then literal c (scan InText s')
          else if ident_start c then scan (InName (String c EmptyString)) s'
          else if Py.between 123 123 c then scan (InBrace EmptyString) s'
          else literal "$" (literal c (scan InText s'))
      | InName name =>
          if ident_char c then scan (InName (name ++ String c EmptyString)) s'
          else Placeholder false name :: resume
      | InBrace name =>
          let extends :=
            match name with
            | EmptyString => ident_start c
            | _ => ident_char c
            end in
          if extends then scan (InBrace (name ++ String c EmptyString)) s'
          else
            match name with
            | String _ _ =>
                if Py.between 125 125 c then Placeholder true name :: scan InText s'
                else literals ("${" ++ name) resume
            | EmptyString => literals "${" resume
            end
      end
  end.

(** [Template(text)] *)
Definition parse (text : string) : Template := scan InText text.

(** [kws[name]], the keyword arguments in call order. *)
Fixpoint lookup (kws : list (string * string)) (name : string) : option string :=
  match kws with
  | [] => None
  | (k, v) :: kws' => if String.eqb k name then Some v else lookup kws' name
  end.

(** The text of a placeholder, which [safe_substitute] keeps when the
    name has no value. *)
Definition source_text (braced : bool) (name : string) : string :=
  if braced then "${" ++ name ++ "}" else "$" ++ name.

Definition substitute_chunk (kws : list (string * string)) (c : chunk) : string :=
  match c with
  | Text s => s
  | Placeholder braced name =>
      match lookup kws name with
      | Some v => v
      | None => source_text braced name
      end
  end.

Fixpoint substitute_chunks (t : Template) (kws : list (string * string)) : string :=
  match t with
  | [] => EmptyString
  | c :: t' => substitute_chunk kws c ++ substitute_chunks t' kws
  end.

(** [Template(text).safe_substitute] applied to the keyword arguments
    [kws]. *)
Definition safe_substitute (text : string) (kws : list (string * string)) : string :=
  substitute_chunks (parse text) kws.

End Tpl.

(** ** [sparkline_point_js] *)

Import PyNum.

Inductive exception : Type :=
  | ValueError (msg : string)
  | TypeError (msg : string)
  | ColumnNotFoundError (col : string).

(** The result of a call: the exception raised, or the value returned. *)
Definition result (A : Type) : Type := (exception + A)%type.

Definition raise {A : Type} (e : exception) : result A := inl e.
Definition ret {A : Type} (a : A) : result A := inr a.

Definition bind {A B : Type} (r : result A) (k : A -> result B) : result B :=
  match r with
  | inl e => inl e
  | inr a => k a
  end.

Notation "x <- r ;; k" := (bind r (fun x => k))
  (at level 61, r at next level, right associativity).

(** An argument typed [str | list[str]]. *)
Inductive str_or_list : Type :=
  | Str (s : string)
  | Strs (l : list string).

(** The arguments of a call, under the names of the parameters. *)
Module Args.
Record t : Type := make {
  x : str_or_list;
  type : string;
  x_lower : option str_or_list;
  x_upper : option str_or_list;
  xlim : option (number * number);
  xlab : string;
  y : option (list number);
  vline : option number;
  text : option str_or_list;
  height : number;
  width : number;
  color : str_or_list;
  color_errorbar : option str_or_list;
  color_vline : string;
  legend : bool;
  legend_label : option (list string);
  legend_title : string;
  legend_position : number;
  legend_type : string;
  margin : option (list Z)
}.

(** A call that passes [x] only: every other parameter at its default. *)
Definition defaults (x : str_or_list) : t :=
  {| x := x; type := "cell"; x_lower := None; x_upper := None;
     xlim := None; xlab := EmptyString; y := None; vline := None;
     text := None; height := Int 30; width := Int 150;
     color := Str "#FFD700"; color_errorbar := None;
     color_vline := "#00000050"; legend := false; legend_label := None;
     legend_title := EmptyString; legend_position := Int 0;
     legend_type := "point"; margin := None |}.

Definition with_type (v : string) (a : t) : t :=
  make (x a) v (x_lower a) (x_upper a) (xlim a) (xlab a) (y a) (vline a)
    (text a) (height a) (width a) (color a) (color_errorbar a)
    (color_vline a) (legend a) (legend_label a) (legend_title a)
    (legend_position a) (legend_type a) (margin a).

Definition with_x_lower (v : option str_or_list) (a : t) : t :=
  make (x a) (type a) v (x_upper a) (xlim a) (xlab a) (y a) (vline a)
    (text a) (height a) (width a) (color a) (color_errorbar a)
    (color_vline a) (legend a) (legend_label a) (legend_title a)
    (legend_position a) (legend_type a) (margin a).

Definition with_x_upper (v : option str_or_list) (a : t) : t :=
  make (x a) (type a) (x_lower a) v (xlim a) (xlab a) (y a) (vline a)
    (text a) (height a) (width a) (color a) (color_errorbar a)
    (color_vline a) (legend a) (legend_label a) (legend_title a)
    (legend_position a) (legend_type a) (margin a).

Definition with_color (v : str_or_list) (a : t) : t :=
  make (x a) (type a) (x_lower a) (x_upper a) (xlim a) (xlab a) (y a)
    (vline a) (text a) (height a) (width a) v (color_errorbar a)
    (color_vline a) (legend a) (legend_label a) (legend_title a)
    (legend_position a) (legend_type a) (margin a).

Definition with_xlim (v : option (number * number)) (a : t) : t :=
  make (x a) (type a) (x_lower a) (x_upper a) v (xlab a) (y a)
    (vline a) (text a) (height a) (width a) (color a) (color_errorbar a)
    (color_vline a) (legend a) (legend_label a) (legend_title a)
    (legend_position a) (legend_type a) (margin a).
End Args.

Import Py.

(** *** The nested helper [to_rgba] *)

(** [f'"rgba({r}, {g}, {b}, 1)"'] *)
Definition rgba_literal (r g b : Z) : string :=
  quoted ("rgba(" ++ str_int r ++ ", " ++ str_int g ++ ", " ++ str_int b ++ ", 1)").

(** The [try] block of [to_rgba]: [Some] is the value it returns, [None]
    is leaving the block without a return, at its end or through the
    [ValueError] of [int]. *)
Definition hex_to_rgba (color_str : string) : option string :=
  let hex_str := substring 1 (String.length color_str - 1) color_str in
  let hex_str :=
    if Nat.eqb (String.length hex_str) 3 then double_chars hex_str else hex_str in
  if Nat.eqb (String.length hex_str) 6 then
    match int16 (slice 0 2 hex_str) with
    | None => None
    | Some r =>
        match int16 (slice 2 4 hex_str) with
        | None => None
        | Some g =>
            match int16 (slice 4 6 hex_str) with
            | None => None
            | Some b => Some (rgba_literal r g b)
            end
        end
    end
  else None.

Definition to_rgba (color_name : string) : string :=
  let color_str := strip color_name in
  match (if startswith color_str "#" then hex_to_rgba color_str else None) with
  | Some rgba => rgba
  | None =>
      if startswith (lower color_str) "rgb" then quoted color_str
      else quoted color_name
  end.

(** *** Defaults, broadcasting and validation (source lines 90 to 135) *)

(** [[v] * n] when [v] is a string, [v] itself when it is a list. *)
Definition broadcast (n : nat) (v : str_or_list) : list string :=
  match v with
  | Str s => repeat s n
  | Strs l => l
  end.

(** [x = [x]] when [x] is a string. *)
Definition value_columns (x : str_or_list) : list string :=
  match x with
  | Str s => [s]
  | Strs l => l
  end.

Definition default_margin : list Z := [0; 0; 0; 0; 0].

Definition normalized_margin (margin : option (list Z)) : list Z :=
  match margin with
  | None => default_margin
  | Some m => m
  end.

(** [list(range(1, n + 1))] *)
Definition one_to (n : nat) : list number :=
  map (fun i => Int (Z.of_nat i)) (seq 1 n).

Definition missing_column (col : string) : exception :=
  ValueError ("Column '" ++ col ++ "' not found in DataFrame").

(** [col in tbl.columns] *)
Definition has_column (tbl : Pl.DataFrame) (col : string) : bool :=
  existsb (String.eqb col) (Pl.columns tbl).

(** One validation loop: the first column that is not in the frame
    raises. *)
Fixpoint check_columns (tbl : Pl.DataFrame) (cols : list string) : result unit :=
  match cols with
  | [] => ret tt
  | col :: cols' =>
      if has_column tbl col then check_columns tbl cols'
      else raise (missing_column col)
  end.

(** Broadcast and validate one bound argument, when it is not [None]. *)
Definition check_bound (tbl : Pl.DataFrame) (n : nat) (bound : option str_or_list)
  : result (option (list string)) :=
  match bound with
  | None => ret None
  | Some b =>
      let cols := broadcast n b in
      _ <- check_columns tbl cols ;;
      ret (Some cols)
  end.

(** The local variables after line 135. *)
Module Locals.
Record t : Type := make {
  margin : list Z;
  x : list string;
  x_lower : option (list string);
  x_upper : option (list string);
  color : list string;
  color_errorbar : list string;
  y : list number;
  text : list string
}.
End Locals.

Definition normalize (tbl : Pl.DataFrame) (a : Args.t) : result Locals.t :=
  let margin := normalized_margin (Args.margin a) in
  let x_upper :=
    match Args.x_upper a with
    | None => Args.x_lower a
    | Some u => Some u
    end in
  let color_errorbar :=
    match Args.color_errorbar a with
    | None => Args.color a
    | Some c => c
    end in
  let x := value_columns (Args.x a) in
  let n := List.length x in
  let color := broadcast n (Args.color a) in
  let color_errorbar := broadcast n color_errorbar in
  let y :=
    match Args.y a with
    | None => one_to n
    | Some y => y
    end in
  let text :=
    match Args.text a with
    | None => repeat (dq ++ dq) n
    | Some t => broadcast n t
    end in
  _ <- check_columns tbl x ;;
  x_lower <- check_bound tbl n (Args.x_lower a) ;;
  x_upper <- check_bound tbl n x_upper ;;
  ret (Locals.make margin x x_lower x_upper color color_errorbar y text).

(** *** The JavaScript fragments (source lines 166 to 254) *)

(** [", ".join([f'cell.row["{col}"]' for col in cols])] *)
Definition cell_rows (cols : list string) : string :=
  join ", " (map (fun col => "cell.row[" ++ quoted col ++ "]") cols).

(** [map(str, range(n))] *)
Definition index_positions (n : nat) : list string :=
  map (fun i => str_int (Z.of_nat i)) (seq 0 n).

(** [", ".join(map(str, range(n)))] *)
Definition indices (n : nat) : string := join ", " (index_positions n).

Definition transparent : string := "#FFFFFF00".

(** [type in ("footer", "header")] *)
Definition footer_or_header (type : string) : bool :=
  String.eqb type "footer" || String.eqb type "header".




(** The error of a comparison between objects that have no order. *)
Definition unorderable (op : string) (v w : object) : exception :=
  TypeError ("'" ++ op ++ "' not supported between instances of '"
             ++ type_name v ++ "' and '" ++ type_name w ++ "'").

(** [v < w] *)
Definition less (v w : object) : result bool :=
  match v, w with
  | OInt a, OInt b => ret (a <? b)
  | OFloat a, OFloat b => ret (PrimFloat.ltb a b)
  | OInt a, OFloat b => ret (int_lt_float a b)
  | OFloat a, OInt b => ret (float_lt_int a b)
  | OStr a, OStr b => ret (String.ltb a b)
  | _, _ => raise (unorderable "<" v w)
  end.

(** [v > w] *)
Definition greater (v w : object) : result bool :=
  match v, w with
  | OInt a, OInt b => ret (b <? a)
  | OFloat a, OFloat b => ret (PrimFloat.ltb b a)
  | OInt a, OFloat b => ret (float_lt_int b a)
  | OFloat a, OInt b => ret (int_lt_float b a)
  | OStr a, OStr b => ret (String.ltb b a)
  | _, _ => raise (unorderable ">" v w)
  end.

(** The loop of [min] and [max] on objects: the comparison
    [op item running] may raise. *)
Fixpoint min_max_objects (op : object -> object -> result bool)
  (running : object) (rest : list object) : result object :=
  match rest with
  | [] => ret running
  | item :: rest' =>
      replace <- op item running ;;
      min_max_objects op (if replace then item else running) rest'
  end.

(** [min(l)] on a non-empty list of objects. *)
Definition object_min : object -> list object -> result object :=
  min_max_objects less.

(** [max(l)] on a non-empty list of objects. *)
Definition object_max : object -> list object -> result object :=
  min_max_objects greater.

(** [o - 0.5] *)
Definition minus_half (o : object) : result float :=
  match o with
  | OInt n => ret (PrimFloat.sub (float_of_int n) 0.5%float)
  | OFloat f => ret (PrimFloat.sub f 0.5%float)
  | OStr _ => raise (TypeError "unsupported operand type(s) for -: 'str' and 'float'")
  end.

(** [o + 0.5] *)
Definition plus_half (o : object) : result float :=
  match o with
  | OInt n => ret (PrimFloat.add (float_of_int n) 0.5%float)
  | OFloat f => ret (PrimFloat.add f 0.5%float)
  | OStr _ =>
      raise (TypeError ("can only concatenate str (not " ++ quoted "float"
                        ++ ") to str"))
  end.

(** The loop that fills [x_vals]. *)
Fixpoint extend_x_vals (tbl : Pl.DataFrame) (cols : list string) (x_vals : list object)
  : result (list object) :=
  match cols with
  | [] => ret x_vals
  | col :: cols' =>
      match Pl.getitem tbl col with
      | None => raise (ColumnNotFoundError col)
      | Some s => extend_x_vals tbl cols' (x_vals ++ Pl.drop_nulls s)
      end
  end.

Definition default_range : number * number := (Int 0, Int 1).

(** Lines 183 to 191: [xlim] after the block. *)
Definition x_range (tbl : Pl.DataFrame) (x : list string)
  (xlim : option (number * number)) : result (number * number) :=
  match xlim with
  | Some r => ret r
  | None =>
      x_vals <- extend_x_vals tbl x [] ;;
      match x_vals with
      | v :: rest =>
          lowest <- object_min v rest ;;
          lo <- minus_half lowest ;;
          highest <- object_max v rest ;;
          hi <- plus_half highest ;;
          ret (Float lo, Float hi)
      | [] => ret default_range
      end
  end.

(** [legend_type_map.get(legend_type, "markers")] *)
Definition legend_mode (legend_type : string) : string :=
  if String.eqb legend_type "point" then "markers"
  else if String.eqb legend_type "line" then "lines"
  else if String.eqb legend_type "point+line" then "markers+lines"
  else "markers".

(** The trace of series [i]. *)
Definition trace (js_legend_type : string) (i : nat) : string :=
  let I := str_int (Z.of_nat i) in
  join nl [
    "{";
    "        " ++ quoted "x" ++ ": [x[" ++ I ++ "]],";
    "        " ++ quoted "y" ++ ": [y[" ++ I ++ "]],";
    "        " ++ quoted "error_x" ++ ": {";
    "            type: " ++ quoted "data" ++ ",";
    "            symmetric: false,";
    "            array: [x_upper[" ++ I ++ "]],";
    "            arrayminus: [x_lower[" ++ I ++ "]],";
    "            " ++ quoted "color" ++ ": color_errorbar[" ++ I ++ "]";
    "        },";
    "        " ++ quoted "text" ++ ": text[" ++ I ++ "],";
    "        " ++ quoted "hoverinfo" ++ ": " ++ quoted "text" ++ ",";
    "        " ++ quoted "mode" ++ ": " ++ quoted js_legend_type ++ ",";
    "        " ++ quoted "alpha_stroke" ++ ": 1,";
    "        " ++ quoted "sizes" ++ ": [10, 100],";
    "        " ++ quoted "spans" ++ ": [1, 20],";
    "        " ++ quoted "type" ++ ": " ++ quoted "scatter" ++ ",";
    "        " ++ quoted "name" ++ ": legend_label[" ++ I ++ "],";
    "        " ++ quoted "marker" ++ ": {";
    "            " ++ quoted "color" ++ ": [color[" ++ I ++ "]],";
    "            " ++ quoted "line" ++ ": {";
    "                " ++ quoted "color" ++ ": color[" ++ I ++ "]";
    "            }";
    "        },";
    "        " ++ quoted "line" ++ ": {";
    "            " ++ quoted "color" ++ ": color[" ++ I ++ "]";
    "        }";
    "    }"
  ].

(** [data_traces] after the loop. *)
Definition data_traces (js_legend_type : string) (n : nat) : list string :=
  map (trace js_legend_type) (seq 0 n).

Definition trace_separator : string := "," ++ nl ++ "      ".

(** The keyword arguments of [safe_substitute]. *)
Module Js.
Record t : Type := make {
  js_x : string;
  js_y : string;
  js_x_lower : string;
  js_x_upper : string;
  js_x_range : string;
  js_y_range : string;
  js_vline : string;
  js_text : string;
  js_height : string;
  js_width : string;
  js_color : string;
  js_color_errorbar : string;
  js_color_vline : string;
  js_margin : string;
  js_xlab : string;
  js_showlegend : string;
  js_legend_title : string;
  js_legend_position : string;
  js_legend_label : string;
  data_trace : string
}.

Definition kwargs (v : t) : list (string * string) :=
  [ ("js_x", js_x v); ("js_y", js_y v); ("js_x_lower", js_x_lower v);
    ("js_x_upper", js_x_upper v); ("js_x_range", js_x_range v);
    ("js_y_range", js_y_range v); ("js_vline", js_vline v);
    ("js_text", js_text v); ("js_height", js_height v);
    ("js_width", js_width v); ("js_color", js_color v);
    ("js_color_errorbar", js_color_errorbar v);
    ("js_color_vline", js_color_vline v); ("js_margin", js_margin v);
    ("js_xlab", js_xlab v); ("js_showlegend", js_showlegend v);
    ("js_legend_title", js_legend_title v);
    ("js_legend_position", js_legend_position v);
    ("js_legend_label", js_legend_label v); ("data_trace", data_trace v) ].
End Js.

(** The error-bar fragments and colours of lines 174 to 180.  In the
    [else] branch [x_upper] is a list, since line 94 gives it the value of
    [x_lower] when it is [None]. *)
Definition error_bars (type : string) (l : Locals.t)
  : string * string * list string :=
  match Locals.x_lower l, footer_or_header type with
  | Some x_lower, false =>
      (cell_rows x_lower,
       cell_rows (match Locals.x_upper l with Some u => u | None => [] end),
       Locals.color_errorbar l)
  | _, _ => ("0", "0", repeat transparent (List.length (Locals.x l)))
  end.

(** Lines 166 to 254, from the normalized locals. *)
Definition fragments (tbl : Pl.DataFrame) (a : Args.t) (l : Locals.t) : result Js.t :=
  let x := Locals.x l in
  let js_x :=
    if String.eqb (Args.type a) "cell" then cell_rows x
    else indices (List.length (Locals.color l)) in
  let js_y := join ", " (map str (Locals.y l)) in
  let '(js_x_lower, js_x_upper, color_errorbar) := error_bars (Args.type a) l in
  xlim <- x_range tbl x (Args.xlim a) ;;
  let js_x_range := str (fst xlim) ++ ", " ++ str (snd xlim) in
  let js_y_range := "0, " ++ str_int (Z.of_nat (List.length x + 1)) in
  let js_text := join ", " (Locals.text l) in
  let js_vline :=
    match Args.vline a with
    | Some v => str v
    | None => "[]"
    end in
  let js_height := str (Args.height a) in
  let js_width := str (Args.width a) in
  let js_color := join ", " (map to_rgba (Locals.color l)) in
  let js_color_errorbar := join ", " (map to_rgba color_errorbar) in
  let js_color_vline := to_rgba (Args.color_vline a) in
  let js_xlab := Args.xlab a in
  let js_showlegend := if Args.legend a then "true" else "false" in
  let js_legend_title := Args.legend_title a in
  let js_legend_position := str (Args.legend_position a) in
  let js_legend_type := legend_mode (Args.legend_type a) in
  let js_legend_label :=
    match Args.legend_label a with
    | Some (label :: labels) => join ", " (map quoted (label :: labels))
    | _ => EmptyString
    end in
  let js_margin := join ", " (map str_int (Locals.margin l)) in
  let data_trace :=
    join trace_separator (data_traces js_legend_type (List.length x)) in
  ret (Js.make js_x js_y js_x_lower js_x_upper js_x_range js_y_range js_vline
         js_text js_height js_width js_color js_color_errorbar js_color_vline
         js_margin js_xlab js_showlegend js_legend_title js_legend_position
         js_legend_label data_trace).

(** Everything before the template is read. *)
Definition js_fragments (tbl : Pl.DataFrame) (a : Args.t) : result Js.t :=
  l <- normalize tbl a ;;
  fragments tbl a l.

(** [sparkline_point_js]; [template_content] is the content of
    [sparkline.js], the text asset next to the module. *)
Definition sparkline_point_js (template_content : string) (tbl : Pl.DataFrame)
  (a : Args.t) : result string :=
  v <- js_fragments tbl a ;;
  ret (Tpl.safe_substitute template_content (Js.kwargs v)).

(** ** Running examples *)

(** The frame of [planning/example_sparkline.py]. *)
Definition example_tbl : Pl.DataFrame :=
  [ ("value", Pl.Float64 [Some 5.1%float; Some 4.9%float; Some 4.7%float]);
    ("error", Pl.Float64 [Some 0.3%float; Some 0.2%float; Some 0.4%float]) ].

(** A frame with a text column, an integer column and a float column
    that has a null. *)
Definition mixed_tbl : Pl.DataFrame :=
  [ ("label", Pl.Utf8 [Some "a"; Some "b"; Some "c"]);
    ("count", Pl.Int64 [Some 1; Some 2; Some 3]);
    ("value", Pl.Float64 [Some 2.5%float; None; Some 0.25%float]) ].

(** A call on the text column. *)
Definition label_args : Args.t := Args.defaults (Str "label").

(** A call on the integer and the float column. *)
Definition count_args : Args.t := Args.defaults (Strs ["count"; "value"]).

(** The call of [planning/example_sparkline.py]. *)
Definition example_args : Args.t :=
  Args.with_x_lower (Some (Str "error")) (Args.defaults (Str "value")).

(** A small template with three placeholders, for the examples. *)
Definition sample_template : string :=
  "function(cell, state) { const x = [$js_x]; const range = [${js_x_range}]; const data = [$data_trace]; }".

(** A call in a footer. *)
Definition footer_args : Args.t := Args.with_type "footer" example_args.

(** A call whose [type] is none of the three documented ones. *)
Definition row_args : Args.t := Args.with_type "row" example_args.

(** A call with two value columns and a colour list of one entry. *)
Definition mismatched_args : Args.t :=
  Args.with_color (Strs ["red"]) (Args.defaults (Strs ["value"; "error"])).

(** A call whose lower-bound column is not in the frame. *)
Definition missing_lower_args : Args.t :=
  Args.with_x_lower (Some (Str "stderr")) (Args.defaults (Str "value")).

(** A call with an upper-bound column and no lower-bound column. *)
Definition upper_only_args : Args.t :=
  Args.with_x_upper (Some (Str "stderr")) (Args.defaults (Str "value")).

(** A call without a value column, its scalar lower bound not in the
    frame. *)
Definition no_value_args : Args.t :=
  Args.with_x_lower (Some (Str "stderr")) (Args.defaults (Strs [])).

(** ** Vocabulary of the statements *)

(** The first column of [cols] that the frame does not have. *)
Definition first_absent (tbl : Pl.DataFrame) (cols : list string) : option string :=
  find (fun col => negb (has_column tbl col)) cols.

(** The columns a bound argument names, as the caller wrote them. *)
Definition declared (bound : option str_or_list) : list string :=
  match bound with
  | None => []
  | Some b => value_columns b
  end.

(** The columns a call refers to, in declaration order: value columns,
    lower-bound columns, upper-bound columns. *)
Definition referenced_columns (a : Args.t) : list string :=
  value_columns (Args.x a) ++ declared (Args.x_lower a) ++ declared (Args.x_upper a).

(** The columns the three validation loops go through, in order. *)
Definition checked_columns (a : Args.t) : list string :=
  let n := List.length (value_columns (Args.x a)) in
  let bound b := match b with None => [] | Some v => broadcast n v end in
  value_columns (Args.x a) ++ bound (Args.x_lower a)
    ++ bound (match Args.x_upper a with None => Args.x_lower a | Some u => Some u end).



(** The non-null cells of the columns [cols] as objects, column after
    column. *)
Definition value_objects (tbl : Pl.DataFrame) (cols : list string) : list object :=
  flat_map (fun col =>
              match Pl.getitem tbl col with
              | Some s => Pl.drop_nulls s
              | None => []
              end) cols.

Definition is_number (o : object) : bool :=
  match o with
  | OStr _ => false
  | _ => true
  end.

(** The range block has what it needs: an explicit [xlim], or value
    columns whose non-null cells are all numbers. *)
Definition range_computable (tbl : Pl.DataFrame) (a : Args.t) : bool :=
  match Args.xlim a with
  | Some _ => true
  | None => forallb is_number (value_objects tbl (value_columns (Args.x a)))
  end.

(** The value of a two-digit hexadecimal group, when both characters are
    hexadecimal digits. *)
Definition hex_pair (c1 c2 : ascii) : option Z :=
  match hex_value c1, hex_value c2 with
  | Some d1, Some d2 => Some (16 * d1 + d2)
  | _, _ => None
  end.


(** ** The caller [create_minimal_example] *)

(** The page of [create_minimal_example] up to the generated code. *)
Definition html_head : string :=
  join nl [
    "<!DOCTYPE html>";
    "<html>";
    "<head>";
    "    <meta charset=" ++ dq ++ "UTF-8" ++ dq ++ ">";
    "    <title>Minimal Sparkline Test</title>";
    "    <script src=" ++ dq ++ "https://unpkg.com/react@17/umd/react.production.min.js" ++ dq ++ "></script>";
    "    <script src=" ++ dq ++ "https://unpkg.com/react-dom@17/umd/react-dom.production.min.js" ++ dq ++ "></script>";
    "    <script src=" ++ dq ++ "https://cdn.plot.ly/plotly-2.18.2.min.js" ++ dq ++ "></script>";
    "</head>";
    "<body>";
    "    <h1>Sparkline Test</h1>";
    "    <div id=" ++ dq ++ "sparkline" ++ dq ++ "></div>";
    EmptyString;
    "    <script>";
    "        // The generated sparkline function";
    "        const renderSparkline = "
  ].

(** The page after the generated code. *)
Definition html_tail : string :=
  join nl [
    ";";
    EmptyString;
    "        // Mock cell data";
    "        const cell = {";
    "            row: {value: 5.1, error: 0.3}";
    "        };";
    EmptyString;
    "        // Render the sparkline";
    "        const element = renderSparkline(cell, {});";
    "        ReactDOM.render(element, document.getElementById('sparkline'));";
    EmptyString;
    "        console.log('Sparkline rendered successfully');";
    "    </script>";
    "</body>";
    "</html>"
  ].


(** [html_content], the page around the generated code. *)
Definition html_content (js_code : string) : string :=
  html_head ++ js_code ++ html_tail.

(** What a run does besides returning: lines printed and files written,
    in order. *)
Inductive event : Type :=
  | Print (line : string)
  | WriteFile (path content : string).

(** [create_minimal_example] of [planning/example_sparkline.py]: its
    frame is [example_tbl] and its call is [example_args]. *)
Definition create_minimal_example (template_content : string) : result (list event) :=
  js_code <- sparkline_point_js template_content example_tbl example_args ;;
  ret [ Print ("Generated " ++ str_int (Z.of_nat (String.length js_code))
               ++ " characters of JavaScript");
        WriteFile "test.html" (html_content js_code);
        Print "Created test.html" ].

(** ** Further vocabulary *)

(** The number of occurrences of a character. *)
Fixpoint count_char (c : ascii) (s : string) : nat :=
  match s with
  | EmptyString => O
  | String c' s' => (if Ascii.eqb c c' then 1 else 0) + count_char c s'
  end.

(** Every character is a hexadecimal digit. *)
Fixpoint hex_digits_only (s : string) : bool :=
  match s with
  | EmptyString => true
  | String c s' =>
      match hex_value c with
      | Some _ => hex_digits_only s'
      | None => false
      end
  end.


(** A call with the value column only. *)
Definition plain_args : Args.t := Args.defaults (Str "value").

(** The example call with an explicit range. *)
Definition ranged_args : Args.t :=
  Args.with_xlim (Some (Int 0, Int 10)) example_args.

(** The example call with its own upper-bound column. *)
Definition two_bound_args : Args.t :=
  Args.with_x_upper (Some (Str "value")) example_args.

(** ** Inversion of the monadic steps *)

Lemma bind_inr {A B : Type} (r : result A) (k : A -> result B) (b : B) :
  bind r k = inr b -> exists a, r = inr a /\ k a = inr b.
Proof.
  destruct r as [e | a]; simpl; intros H.
  - discriminate.
  - exists a. split; [reflexivity | exact H].
Qed.

Lemma bind_inl {A B : Type} (r : result A) (k : A -> result B) (e : exception) :
  bind r k = inl e -> r = inl e \/ exists a, r = inr a /\ k a = inl e.
Proof.
  destruct r as [e' | a]; simpl; intros H.
  - left. inversion H. reflexivity.
  - right. exists a. split; [reflexivity | exact H].
Qed.

Ltac invert_bind H :=
  match type of H with
  | bind _ _ = inr _ =>
      let a := fresh "a" in
      let Ha := fresh "Ha" in
      apply bind_inr in H; destruct H as (a & Ha & H); invert_bind H
  | ret _ = inr _ => unfold ret in H; inversion H; subst; clear H
  | _ => idtac
  end.

Lemma check_bound_inr tbl n bound cols :
  check_bound tbl n bound = inr cols ->
  cols = option_map (broadcast n) bound.
Proof.
  destruct bound as [b | ]; simpl; intros H.
  - invert_bind H. reflexivity.
  - unfold ret in H. inversion H. reflexivity.
Qed.

(** What [normalize] leaves in the locals when it returns. *)
Lemma normalize_inr tbl a l :
  normalize tbl a = inr l ->
  let n := List.length (value_columns (Args.x a)) in
  Locals.margin l = normalized_margin (Args.margin a) /\
  Locals.x l = value_columns (Args.x a) /\
  Locals.x_lower l = option_map (broadcast n) (Args.x_lower a) /\
  Locals.x_upper l =
    option_map (broadcast n)
      (match Args.x_upper a with None => Args.x_lower a | Some u => Some u end) /\
  Locals.color l = broadcast n (Args.color a) /\
  Locals.color_errorbar l =
    broadcast n
      (match Args.color_errorbar a with None => Args.color a | Some c => c end) /\
  Locals.y l = (match Args.y a with None => one_to n | Some y => y end) /\
  Locals.text l =
    (match Args.text a with None => repeat (dq ++ dq) n | Some t => broadcast n t end).
Proof.
  unfold normalize. intros H. invert_bind H.
  apply check_bound_inr in Ha0. apply check_bound_inr in Ha1. subst.
  simpl. repeat split; reflexivity.
Qed.

(** In the locals, [x_upper] is a list whenever [x_lower] is one. *)
Lemma upper_follows_lower tbl a l cols :
  normalize tbl a = inr l ->
  Locals.x_lower l = Some cols ->
  exists ups, Locals.x_upper l = Some ups.
Proof.
  intros Hn Hl.
  pose proof (normalize_inr _ _ _ Hn) as (_ & _ & Hlo & Hup & _).
  rewrite Hlo in Hl. rewrite Hup.
  destruct (Args.x_upper a) as [u | ]; simpl; [eexists; reflexivity | ].
  destruct (Args.x_lower a) as [lo | ]; simpl in *; [eexists; reflexivity | discriminate Hl].
Qed.

Lemma js_fragments_inr tbl a v :
  js_fragments tbl a = inr v ->
  exists l, normalize tbl a = inr l /\ fragments tbl a l = inr v.
Proof.
  unfold js_fragments. intros H. apply bind_inr in H. exact H.
Qed.

(** The fields of the keyword record in terms of the locals. *)
Lemma fragments_inr tbl a l v :
  fragments tbl a l = inr v ->
  Js.js_x v =
    (if String.eqb (Args.type a) "cell" then cell_rows (Locals.x l)
     else indices (List.length (Locals.color l))) /\
  Js.js_x_lower v = fst (fst (error_bars (Args.type a) l)) /\
  Js.js_x_upper v = snd (fst (error_bars (Args.type a) l)) /\
  Js.js_color_errorbar v =
    join ", " (map to_rgba (snd (error_bars (Args.type a) l))) /\
  Js.js_margin v = join ", " (map str_int (Locals.margin l)) /\
  Js.data_trace v =
    join trace_separator
      (data_traces (legend_mode (Args.legend_type a)) (List.length (Locals.x l))) /\
  exists xlim,
    x_range tbl (Locals.x l) (Args.xlim a) = inr xlim /\
    Js.js_x_range v = str (fst xlim) ++ ", " ++ str (snd xlim).
Proof.
  unfold fragments.
  destruct (error_bars (Args.type a) l) as [[lo up] ce] eqn:E.
  intros H. invert_bind H. simpl.
  repeat split; try reflexivity.
  exists a0. split; [assumption | reflexivity].
Qed.

Lemma sparkline_point_js_inr template tbl a out :
  sparkline_point_js template tbl a = inr out ->
  exists v, js_fragments tbl a = inr v /\
            out = Tpl.safe_substitute template (Js.kwargs v).
Proof.
  unfold sparkline_point_js. intros H. invert_bind H.
  exists a0. split; [assumption | reflexivity].
Qed.

(** ** The model at work *)

Example str_float_examples :
  map str_float [4.2; 5.6; 30; 0.1 + 0.2; 1e16; 1e-5; -0.0; 123456.789]%float
  = ["4.2"; "5.6"; "30.0"; "0.30000000000000004"; "1e+16"; "1e-05"; "-0.0";
     "123456.789"].
Proof. vm_compute. reflexivity. Qed.

Example int16_examples :
  map int16 ["ff"; "D7"; "0g"; "-f"; " f"; "+1"; "f_"; "0x"]
  = [Some 255; Some 215; None; Some (-15); Some 15; Some 1; None; None].
Proof. reflexivity. Qed.

(** A sign or a blank with one digit is a group that [int] accepts. *)
Example to_rgba_signed_groups :
  to_rgba "#-f-f-f" = quoted "rgba(-15, -15, -15, 1)" /\
  to_rgba "# ff ff" = quoted "rgba(15, 15, 255, 1)".
Proof. split; reflexivity. Qed.

Example to_rgba_passthrough :
  map to_rgba ["red"; " red "; "#FFFFFF00"; "#00000050"; "#ggg"]
  = map quoted ["red"; " red "; "#FFFFFF00"; "#00000050"; "#ggg"].
Proof. reflexivity. Qed.

Example safe_substitute_examples :
  map (fun text => Tpl.safe_substitute text [("a", "1"); ("b_c", "2")])
    ["[$a, ${b_c}]"; "$$a"; "$missing ${missing}"; "cost: $ 5"; "${a"; "$a$b_c"]
  = ["[1, 2]"; "$a"; "$missing ${missing}"; "cost: $ 5"; "${a"; "12"].
Proof. reflexivity. Qed.

(** Without a value column a scalar bound is broadcast to no column, and
    no loop meets its name. *)
Example scalar_bound_of_no_series :
  checked_columns no_value_args = [] /\
  exists v, js_fragments example_tbl no_value_args = inr v.
Proof.
  split; [reflexivity | ].
  eexists. vm_compute. reflexivity.
Qed.

Example float_of_int_examples :
  map float_of_int [0; 3; -7; 9007199254740993; 9007199254740995]
  = [0; 3; -7; 9007199254740992; 9007199254740996]%float.
Proof. vm_compute. reflexivity. Qed.

(** The range block on a text column, on a float and a text column, on
    an integer and a float column, and with an explicit range. *)
Example range_block_examples :
  x_range mixed_tbl ["label"] None
  = inl (TypeError "unsupported operand type(s) for -: 'str' and 'float'") /\
  x_range mixed_tbl ["value"; "label"] None
  = inl (TypeError "'<' not supported between instances of 'str' and 'float'") /\
  x_range mixed_tbl ["count"; "value"] None
  = inr (Float (-0.25)%float, Float 3.5%float) /\
  x_range mixed_tbl ["label"] (Some (Int 0, Int 1)) = inr (Int 0, Int 1).
Proof. repeat split; vm_compute; reflexivity. Qed.

(** A call on an integer and a float column returns. *)
Example integer_column_fragments :
  exists v,
    js_fragments mixed_tbl count_args = inr v /\
    Js.js_x_range v = "-0.25, 3.5" /\
    Js.js_y v = "1, 2".
Proof.
  eexists. split; [vm_compute; reflexivity | ].
  split; reflexivity.
Qed.

(** The fragments of the call of [planning/example_sparkline.py]. *)
Example example_fragments :
  exists v,
    js_fragments example_tbl example_args = inr v /\
    Js.js_x v = "cell.row[" ++ quoted "value" ++ "]" /\
    Js.js_y v = "1" /\
    Js.js_x_lower v = "cell.row[" ++ quoted "error" ++ "]" /\
    Js.js_x_upper v = "cell.row[" ++ quoted "error" ++ "]" /\
    Js.js_x_range v = "4.2, 5.6" /\
    Js.js_y_range v = "0, 2" /\
    Js.js_vline v = "[]" /\
    Js.js_text v = dq ++ dq /\
    Js.js_height v = "30" /\
    Js.js_width v = "150" /\
    Js.js_color v = quoted "rgba(255, 215, 0, 1)" /\
    Js.js_color_errorbar v = quoted "rgba(255, 215, 0, 1)" /\
    Js.js_color_vline v = quoted "#00000050" /\
    Js.js_margin v = "0, 0, 0, 0, 0" /\
    Js.js_showlegend v = "false" /\
    Js.js_legend_position v = "0" /\
    Js.js_legend_label v = EmptyString /\
    Js.data_trace v = trace "markers" 0.
Proof.
  eexists. split; [vm_compute; reflexivity | ].
  repeat split; reflexivity.
Qed.

(** ** Margins *)

(** C7, as stated, fails: a call that leaves [margin] out gets five
    zeros, not four. *)
Lemma default_margin_not_four_zeros :
  Args.margin example_args = None /\
  exists l, normalize example_tbl example_args = inr l /\
            Locals.margin l <> [0; 0; 0; 0] /\
            List.length (Locals.margin l) = 5%nat.
Proof.
  split; [reflexivity | ].
  eexists. split; [vm_compute; reflexivity | ].
  split; [discriminate | reflexivity].
Qed.

(** C7, amended: when [margin] is left out, the normalized margin is the
    five-element sequence of zeros (bottom, left, top, right, padding of
    the docstring), emitted as [0, 0, 0, 0, 0]. *)
Theorem default_margin_five_zeros tbl a v :
  Args.margin a = None ->
  js_fragments tbl a = inr v ->
  (exists l, normalize tbl a = inr l /\ Locals.margin l = [0; 0; 0; 0; 0]) /\
  Js.js_margin v = "0, 0, 0, 0, 0".
Proof.
  intros Hm H.
  apply js_fragments_inr in H. destruct H as (l & Hn & Hf).
  pose proof (normalize_inr _ _ _ Hn) as (Hmargin & _).
  rewrite Hm in Hmargin. simpl in Hmargin.
  apply fragments_inr in Hf. destruct Hf as (_ & _ & _ & _ & Hjm & _).
  split.
  - exists l. split; [exact Hn | exact Hmargin].
  - rewrite Hjm, Hmargin. reflexivity.
Qed.

Lemma default_margin_five_zeros_witness :
  exists v, js_fragments example_tbl example_args = inr v /\
            Js.js_margin v = "0, 0, 0, 0, 0".
Proof.
  eexists. split.
  - vm_compute. reflexivity.
  - refine (proj2 (default_margin_five_zeros example_tbl example_args _ _ _)).
    + reflexivity.
    + vm_compute. reflexivity.
Defined.

(** ** Error bars outside a cell *)

Lemma error_bars_zero type l :
  Locals.x_lower l = None \/ footer_or_header type = true ->
  error_bars type l = ("0", "0", repeat transparent (List.length (Locals.x l))).
Proof.
  unfold error_bars. intros [H | H]; rewrite H.
  - reflexivity.
  - destruct (Locals.x_lower l); reflexivity.
Qed.

(** C6, as stated, fails: a [type] that is neither ["cell"], ["footer"]
    nor ["header"] keeps the error bars of the bound columns and the
    error-bar colour of the points. *)
Lemma other_type_keeps_error_bars :
  Args.type row_args <> "cell" /\
  exists v, js_fragments example_tbl row_args = inr v /\
            Js.js_x_lower v = "cell.row[" ++ quoted "error" ++ "]" /\
            Js.js_x_lower v <> "0" /\
            Js.js_color_errorbar v = quoted "rgba(255, 215, 0, 1)".
Proof.
  split; [discriminate | ].
  eexists. split; [vm_compute; reflexivity | ].
  repeat split; try reflexivity. discriminate.
Qed.

(** C6, amended: when no lower-bound columns are configured, and when
    [type] is ["footer"] or ["header"], the emitted error bars are
    zero-length (both fragments are [0]) and the error-bar colour of every
    series is the fully transparent ["#FFFFFF00"]. *)
Theorem zero_error_bars tbl a v :
  Args.x_lower a = None \/ Args.type a = "footer" \/ Args.type a = "header" ->
  js_fragments tbl a = inr v ->
  Js.js_x_lower v = "0" /\
  Js.js_x_upper v = "0" /\
  Js.js_color_errorbar v =
    join ", " (repeat (quoted "#FFFFFF00")
                 (List.length (value_columns (Args.x a)))).
Proof.
  intros Hcase H.
  apply js_fragments_inr in H. destruct H as (l & Hn & Hf).
  pose proof (normalize_inr _ _ _ Hn) as (_ & Hx & Hlo & _).
  apply fragments_inr in Hf.
  destruct Hf as (_ & Hjl & Hju & Hjc & _).
  assert (Hz : error_bars (Args.type a) l
               = ("0", "0", repeat transparent (List.length (Locals.x l)))).
  { apply error_bars_zero.
    destruct Hcase as [Hnone | [Hty | Hty]].
    - left. rewrite Hlo, Hnone. reflexivity.
    - right. rewrite Hty. reflexivity.
    - right. rewrite Hty. reflexivity. }
  rewrite Hz in Hjl, Hju, Hjc. simpl in Hjl, Hju, Hjc.
  rewrite map_repeat, Hx in Hjc.
  repeat split; assumption.
Qed.

Lemma zero_error_bars_witness :
  exists v, js_fragments example_tbl footer_args = inr v /\
            Js.js_x_lower v = "0" /\
            Js.js_x_upper v = "0" /\
            Js.js_color_errorbar v = quoted "#FFFFFF00".
Proof.
  eexists. split.
  - vm_compute. reflexivity.
  - apply (zero_error_bars example_tbl footer_args).
    + right. left. reflexivity.
    + vm_compute. reflexivity.
Defined.

(** ** Positions outside a cell *)

Lemma index_positions_length n : List.length (index_positions n) = n.
Proof.
  unfold index_positions. rewrite length_map, length_seq. reflexivity.
Qed.

Lemma index_positions_nth n i :
  (i < n)%nat -> nth_error (index_positions n) i = Some (str_int (Z.of_nat i)).
Proof.
  intros Hi. unfold index_positions.
  rewrite nth_error_map, nth_error_seq.
  destruct (Nat.ltb_spec i n) as [_ | Hge]; [reflexivity | lia].
Qed.

(** C10: when [type] is not ["cell"], the emitted x positions are the
    indices [0 .. len(color) - 1] of the broadcast colour sequence; their
    number is the number of value columns exactly when the colour
    sequence has that length, as it has when the colour is a scalar. *)
Theorem positions_follow_colors tbl a v :
  Args.type a <> "cell" ->
  js_fragments tbl a = inr v ->
  let n := List.length (value_columns (Args.x a)) in
  let colors := broadcast n (Args.color a) in
  let positions := index_positions (List.length colors) in
  Js.js_x v = join ", " positions /\
  List.length positions = List.length colors /\
  (forall i, (i < List.length colors)%nat ->
             nth_error positions i = Some (str_int (Z.of_nat i))) /\
  (List.length positions = n <-> List.length colors = n) /\
  (forall s, Args.color a = Str s -> List.length positions = n).
Proof.
  intros Hty H n colors positions.
  apply js_fragments_inr in H. destruct H as (l & Hn & Hf).
  pose proof (normalize_inr _ _ _ Hn) as (_ & _ & _ & _ & Hc & _).
  apply fragments_inr in Hf. destruct Hf as (Hjx & _).
  apply String.eqb_neq in Hty. rewrite Hty, Hc in Hjx.
  subst positions. rewrite index_positions_length.
  split; [exact Hjx | ].
  split; [reflexivity | ].
  split; [apply index_positions_nth | ].
  split; [tauto | ].
  intros s Hs. subst colors. rewrite Hs. simpl. apply repeat_length.
Qed.

Lemma positions_follow_colors_witness :
  exists v, js_fragments example_tbl footer_args = inr v /\ Js.js_x v = "0".
Proof.
  eexists. split.
  - vm_compute. reflexivity.
  - apply (positions_follow_colors example_tbl footer_args).
    + discriminate.
    + vm_compute. reflexivity.
Defined.

(** ** The colour translator *)

Ltac ascii_cases c := destruct c as [[] [] [] [] [] [] [] []].

Lemma hex_value_facts c d :
  hex_value c = Some d ->
  isspace c = false /\ int_space c = false /\
  between 43 43 c = false /\ between 45 45 c = false /\
  between 120 120 c = false /\ between 88 88 c = false /\
  0 <= d <= 15.
Proof.
  ascii_cases c; intros H; vm_compute in H; try discriminate H;
    injection H as <-; repeat split; (reflexivity || lia).
Qed.


Lemma space_stays_space c : isspace c = true -> isspace (lower_char c) = true.
Proof.
  ascii_cases c; intros H; vm_compute in H; try discriminate H; reflexivity.
Qed.

Lemma int16_hex_pair c1 c2 v :
  hex_pair c1 c2 = Some v ->
  int16 (String c1 (String c2 EmptyString)) = Some v /\ 0 <= v <= 255.
Proof.
  unfold hex_pair.
  destruct (hex_value c1) as [d1 | ] eqn:E1; [ | discriminate].
  destruct (hex_value c2) as [d2 | ] eqn:E2; [ | discriminate].
  intros H. assert (Hv : 16 * d1 + d2 = v) by congruence. clear H. subst v.
  destruct (hex_value_facts _ _ E1) as (_ & S1 & P1 & M1 & _ & _ & R1).
  destruct (hex_value_facts _ _ E2) as (_ & S2 & _ & _ & X2 & Y2 & R2).
  split; [ | lia].
  unfold int16. simpl int_lskip. rewrite S1.
  simpl int_rskip. rewrite S2, P1, M1.
  unfold hex_prefixed. rewrite X2, Y2, Bool.andb_false_r.
  unfold hex_body. rewrite E1. simpl hex_digits. rewrite E2. reflexivity.
Qed.

Lemma rstrip_cons c s :
  isspace c = false -> rstrip (String c s) = String c (rstrip s).
Proof.
  intros H. simpl. rewrite H. destruct (rstrip s); reflexivity.
Qed.

Lemma lstrip_cons c s : isspace c = false -> lstrip (String c s) = String c s.
Proof.
  intros H. simpl. rewrite H. reflexivity.
Qed.

Lemma strip_cons c s :
  isspace c = false -> strip (String c s) = String c (rstrip s).
Proof.
  intros H. unfold strip. rewrite lstrip_cons by exact H.
  apply rstrip_cons. exact H.
Qed.

(** A descriptor that begins with the marker keeps it when trimmed. *)
Lemma strip_marker t : strip (String "#" t) = String "#" (rstrip t).
Proof. apply strip_cons. reflexivity. Qed.

(** The [try] block on three and on six characters after the marker. *)
Lemma hex_to_rgba_six c1 c2 c3 c4 c5 c6 :
  hex_to_rgba (String "#" (string_of_list_ascii [c1; c2; c3; c4; c5; c6])) =
  match int16 (string_of_list_ascii [c1; c2]) with
  | None => None
  | Some r =>
      match int16 (string_of_list_ascii [c3; c4]) with
      | None => None
      | Some g =>
          match int16 (string_of_list_ascii [c5; c6]) with
          | None => None
          | Some b => Some (rgba_literal r g b)
          end
      end
  end.
Proof. reflexivity. Qed.

Lemma hex_to_rgba_three c1 c2 c3 :
  hex_to_rgba (String "#" (string_of_list_ascii [c1; c2; c3])) =
  hex_to_rgba (String "#" (string_of_list_ascii [c1; c1; c2; c2; c3; c3])).
Proof. reflexivity. Qed.


Lemma startswith_marker h : startswith (String "#" h) "#" = true.
Proof. destruct h; reflexivity. Qed.

Lemma marker_is_not_rgb h : startswith (lower (String "#" h)) "rgb" = false.
Proof. reflexivity. Qed.


Lemma to_rgba_hex color_name h rgba :
  strip color_name = String "#" h ->
  hex_to_rgba (String "#" h) = Some rgba ->
  to_rgba color_name = rgba.
Proof.
  intros Hs Hn. unfold to_rgba.
  rewrite Hs, startswith_marker, Hn. reflexivity.
Qed.




Lemma hex_to_rgba_six_digits c1 c2 c3 c4 c5 c6 r g b :
  hex_pair c1 c2 = Some r -> hex_pair c3 c4 = Some g -> hex_pair c5 c6 = Some b ->
  hex_to_rgba (String "#" (string_of_list_ascii [c1; c2; c3; c4; c5; c6]))
  = Some (rgba_literal r g b).
Proof.
  intros Hr Hg Hb. rewrite hex_to_rgba_six.
  apply int16_hex_pair in Hr, Hg, Hb.
  destruct Hr as [Hr _], Hg as [Hg _], Hb as [Hb _].
  simpl string_of_list_ascii. rewrite Hr, Hg, Hb. reflexivity.
Qed.



Lemma prefix_cons a s1 b s2 :
  String.prefix (String a s1) (String b s2)
  = if ascii_dec a b then String.prefix s1 s2 else false.
Proof. reflexivity. Qed.

Lemma prefix_empty s : String.prefix EmptyString s = true.
Proof. destruct s; reflexivity. Qed.

Lemma starts_with_rgb s :
  startswith (lower s) "rgb" = true ->
  exists c1 c2 c3 rest,
    s = String c1 (String c2 (String c3 rest)) /\
    lower_char c1 = "r"%char /\ lower_char c2 = "g"%char /\
    lower_char c3 = "b"%char.
Proof.
  unfold startswith.
  destruct s as [ | c1 [ | c2 [ | c3 rest]]]; cbn [lower];
    try (intros H; discriminate H);
    repeat rewrite prefix_cons.
  - destruct (ascii_dec "r" (lower_char c1)); intros H; discriminate H.
  - destruct (ascii_dec "r" (lower_char c1)); [ | intros H; discriminate H].
    destruct (ascii_dec "g" (lower_char c2)); intros H; discriminate H.
  - destruct (ascii_dec "r" (lower_char c1)) as [E1 | ]; [ | intros H; discriminate H].
    destruct (ascii_dec "g" (lower_char c2)) as [E2 | ]; [ | intros H; discriminate H].
    destruct (ascii_dec "b" (lower_char c3)) as [E3 | ]; [ | intros H; discriminate H].
    intros _. exists c1, c2, c3, rest. auto.
Qed.

Lemma letter_is_not_space c l :
  lower_char c = l -> isspace l = false -> isspace c = false.
Proof.
  intros Hl Hn. destruct (isspace c) eqn:E; [ | reflexivity].
  apply space_stays_space in E. rewrite Hl, Hn in E. discriminate E.
Qed.

(** C8, as stated, fails: the white space after an [rgb] descriptor is
    not kept. *)
Lemma rgb_trailing_space_dropped :
  startswith "rgb(1,2,3) " "#" = false /\
  startswith (lower "rgb(1,2,3) ") "rgb" = true /\
  to_rgba "rgb(1,2,3) " = quoted "rgb(1,2,3)" /\
  to_rgba "rgb(1,2,3) " <> quoted "rgb(1,2,3) ".
Proof.
  repeat split; try reflexivity. discriminate.
Qed.

(** C8, amended: for a descriptor that does not begin with the marker
    and whose lowercase form starts with [rgb], the translator returns
    the descriptor with the surrounding white space trimmed, in quotes. *)
Theorem rgb_descriptor_trimmed color_name :
  startswith color_name "#" = false ->
  startswith (lower color_name) "rgb" = true ->
  to_rgba color_name = quoted (strip color_name).
Proof.
  intros _ Hrgb.
  destruct (starts_with_rgb _ Hrgb) as (c1 & c2 & c3 & rest & -> & L1 & L2 & L3).
  pose proof (letter_is_not_space _ _ L1 eq_refl) as S1.
  pose proof (letter_is_not_space _ _ L2 eq_refl) as S2.
  pose proof (letter_is_not_space _ _ L3 eq_refl) as S3.
  unfold to_rgba.
  rewrite strip_cons by exact S1.
  rewrite rstrip_cons by exact S2.
  rewrite rstrip_cons by exact S3.
  assert (Hm : startswith (String c1 (String c2 (String c3 (rstrip rest)))) "#"
               = false).
  { unfold startswith. rewrite prefix_cons.
    destruct (ascii_dec "#" c1) as [E | _]; [ | reflexivity].
    subst c1. discriminate L1. }
  rewrite Hm. cbn [lower]. rewrite L1, L2, L3.
  unfold startswith. repeat rewrite prefix_cons.
  destruct (ascii_dec "r" "r") as [_ | N]; [ | contradiction N; reflexivity].
  destruct (ascii_dec "g" "g") as [_ | N]; [ | contradiction N; reflexivity].
  destruct (ascii_dec "b" "b") as [_ | N]; [ | contradiction N; reflexivity].
  rewrite prefix_empty. reflexivity.
Qed.

Lemma rgb_descriptor_trimmed_witness :
  to_rgba "rgba(10,10,10,0.5)" = quoted "rgba(10,10,10,0.5)" /\
  to_rgba "RGB(1, 2, 3)  " = quoted "RGB(1, 2, 3)".
Proof.
  split.
  - apply (rgb_descriptor_trimmed "rgba(10,10,10,0.5)"); reflexivity.
  - apply (rgb_descriptor_trimmed "RGB(1, 2, 3)  "); reflexivity.
Defined.

(** ** Column validation *)

Lemma check_columns_first_absent tbl cols :
  check_columns tbl cols =
  match first_absent tbl cols with
  | Some col => raise (missing_column col)
  | None => ret tt
  end.
Proof.
  unfold first_absent.
  induction cols as [ | col cols IH]; simpl; [reflexivity | ].
  destruct (has_column tbl col); simpl; [exact IH | reflexivity].
Qed.

Lemma first_absent_app tbl l1 l2 :
  first_absent tbl (l1 ++ l2) =
  match first_absent tbl l1 with
  | Some col => Some col
  | None => first_absent tbl l2
  end.
Proof.
  unfold first_absent.
  induction l1 as [ | c l1 IH]; simpl; [reflexivity | ].
  destruct (negb (has_column tbl c)); [reflexivity | exact IH].
Qed.

Lemma first_absent_repeat tbl s n :
  n <> O -> first_absent tbl (repeat s n) = first_absent tbl [s].
Proof.
  unfold first_absent. intros Hn.
  induction n as [ | n IH]; [contradiction Hn; reflexivity | ].
  simpl. destruct (negb (has_column tbl s)) eqn:E; [reflexivity | ].
  destruct n as [ | n]; [reflexivity | ].
  rewrite IH by discriminate. simpl. rewrite E. reflexivity.
Qed.

Lemma first_absent_broadcast tbl n v :
  n <> O -> first_absent tbl (broadcast n v) = first_absent tbl (value_columns v).
Proof.
  intros Hn. destruct v as [s | l]; simpl; [ | reflexivity].
  apply first_absent_repeat. exact Hn.
Qed.

Lemma first_absent_some tbl cols col :
  first_absent tbl cols = Some col -> In col cols /\ has_column tbl col = false.
Proof.
  unfold first_absent. intros H. apply find_some in H.
  destruct H as [Hin Hneg]. split; [exact Hin | ].
  destruct (has_column tbl col); [discriminate Hneg | reflexivity].
Qed.

Lemma first_absent_none tbl cols :
  first_absent tbl cols = None <-> (forall col, In col cols -> has_column tbl col = true).
Proof.
  unfold first_absent. split.
  - intros H col Hin. pose proof (find_none _ _ H col Hin) as Hn.
    simpl in Hn.
    destruct (has_column tbl col); [reflexivity | discriminate Hn].
  - intros H. induction cols as [ | c cols IH]; simpl; [reflexivity | ].
    rewrite (H c) by (left; reflexivity). simpl.
    apply IH. intros col Hin. apply H. right. exact Hin.
Qed.

(** The three loops of [normalize] are one search through
    [checked_columns]. *)
Lemma normalize_outcome tbl a :
  match first_absent tbl (checked_columns a) with
  | Some col => normalize tbl a = inl (missing_column col)
  | None => exists l, normalize tbl a = inr l
  end.
Proof.
  unfold checked_columns, normalize.
  set (n := List.length (value_columns (Args.x a))).
  set (up := match Args.x_upper a with None => Args.x_lower a | Some u => Some u end).
  rewrite !first_absent_app.
  rewrite (check_columns_first_absent tbl (value_columns (Args.x a))).
  destruct (first_absent tbl (value_columns (Args.x a))) as [c | ]; [reflexivity | ].
  simpl bind.
  destruct (Args.x_lower a) as [lo | ]; simpl check_bound.
  - rewrite check_columns_first_absent.
    destruct (first_absent tbl (broadcast n lo)) as [c | ]; [reflexivity | ].
    simpl bind.
    destruct up as [u | ]; simpl check_bound.
    + rewrite check_columns_first_absent.
      destruct (first_absent tbl (broadcast n u)) as [c | ]; [reflexivity | ].
      simpl. eexists. reflexivity.
    + simpl. eexists. reflexivity.
  - simpl bind.
    destruct up as [u | ]; simpl check_bound.
    + rewrite check_columns_first_absent.
      destruct (first_absent tbl (broadcast n u)) as [c | ]; [reflexivity | ].
      simpl. eexists. reflexivity.
    + simpl. eexists. reflexivity.
Qed.

Lemma checked_are_referenced a col :
  In col (checked_columns a) -> In col (referenced_columns a).
Proof.
  unfold checked_columns, referenced_columns.
  set (n := List.length (value_columns (Args.x a))).
  assert (Hb : forall v c, In c (broadcast n v) -> In c (value_columns v)).
  { intros [s | l] c Hc; simpl in *; [ | exact Hc].
    apply repeat_spec in Hc. left. symmetry. exact Hc. }
  rewrite !in_app_iff. intros [H | [H | H]].
  - left. exact H.
  - right. left. destruct (Args.x_lower a) as [lo | ]; [ | contradiction H].
    apply Hb. exact H.
  - destruct (Args.x_upper a) as [u | ].
    + right. right. apply Hb. exact H.
    + right. left. destruct (Args.x_lower a) as [lo | ]; [ | contradiction H].
      apply Hb. exact H.
Qed.

(** With at least one value column, the search through the checked
    columns finds what the search through the referenced columns
    finds. *)
Lemma checked_first_absent tbl a :
  value_columns (Args.x a) <> [] ->
  first_absent tbl (checked_columns a) = first_absent tbl (referenced_columns a).
Proof.
  intros Hx. unfold checked_columns, referenced_columns.
  set (n := List.length (value_columns (Args.x a))).
  assert (Hn : n <> O).
  { subst n. destruct (value_columns (Args.x a)); [contradiction Hx; reflexivity | discriminate]. }
  rewrite !first_absent_app.
  destruct (first_absent tbl (value_columns (Args.x a))); [reflexivity | ].
  destruct (Args.x_lower a) as [lo | ], (Args.x_upper a) as [u | ]; simpl declared;
    rewrite ?first_absent_broadcast by exact Hn; try reflexivity.
  destruct (first_absent tbl (value_columns lo)); reflexivity.
Qed.

(** ** The outcome of a call: validation, then the range block *)

Lemma has_column_getitem tbl col :
  has_column tbl col = true -> exists s, Pl.getitem tbl col = Some s.
Proof.
  unfold has_column, Pl.columns.
  induction tbl as [ | [name s] tbl IH]; simpl; [discriminate | ].
  rewrite (String.eqb_sym col name).
  destruct (String.eqb name col); simpl.
  - intros _. exists s. reflexivity.
  - exact IH.
Qed.

Lemma extend_x_vals_total tbl cols x_vals :
  (forall col, In col cols -> has_column tbl col = true) ->
  extend_x_vals tbl cols x_vals = inr (x_vals ++ value_objects tbl cols)%list.
Proof.
  revert x_vals.
  induction cols as [ | col cols IH]; intros x_vals Hall; simpl.
  - rewrite app_nil_r. reflexivity.
  - destruct (has_column_getitem tbl col) as [s Hs].
    { apply Hall. left. reflexivity. }
    rewrite Hs, IH.
    + rewrite <- app_assoc. reflexivity.
    + intros c Hc. apply Hall. right. exact Hc.
Qed.






(** On numbers no comparison fails. *)
Lemma min_max_numbers op rest : forall running,
  (forall v w, is_number v = true -> is_number w = true ->
               exists b, op v w = inr b) ->
  is_number running = true ->
  forallb is_number rest = true ->
  exists m, min_max_objects op running rest = inr m /\ is_number m = true.
Proof.
  induction rest as [ | item rest IH]; intros running Hop Hr Hrest; simpl.
  - exists running. split; [reflexivity | exact Hr].
  - simpl in Hrest. apply andb_true_iff in Hrest. destruct Hrest as [Hi Hrest].
    destruct (Hop item running Hi Hr) as [b Hb]. rewrite Hb. simpl.
    apply IH; [exact Hop | | exact Hrest].
    destruct b; assumption.
Qed.

Lemma less_numbers v w :
  is_number v = true -> is_number w = true -> exists b, less v w = inr b.
Proof.
  destruct v, w; simpl; intros Hv Hw; try discriminate; eexists; reflexivity.
Qed.

Lemma greater_numbers v w :
  is_number v = true -> is_number w = true -> exists b, greater v w = inr b.
Proof.
  destruct v, w; simpl; intros Hv Hw; try discriminate; eexists; reflexivity.
Qed.

Lemma minus_half_number m :
  is_number m = true -> exists f, minus_half m = inr f.
Proof. destruct m; simpl; intros H; try discriminate; eexists; reflexivity. Qed.

Lemma plus_half_number m :
  is_number m = true -> exists f, plus_half m = inr f.
Proof. destruct m; simpl; intros H; try discriminate; eexists; reflexivity. Qed.

(** With a text among the objects, [min] raises a [TypeError] or
    returns a text. *)
Lemma object_min_text rest : forall running,
  is_number running = false \/ forallb is_number rest = false ->
  (exists msg, object_min running rest = inl (TypeError msg)) \/
  (exists s, object_min running rest = inr (OStr s)).
Proof.
  unfold object_min.
  induction rest as [ | item rest IH]; intros running Htext; simpl.
  - destruct Htext as [Hr | Hrest]; [ | discriminate Hrest].
    destruct running as [n | f | s]; try discriminate Hr.
    right. exists s. reflexivity.
  - destruct running as [a | a | a], item as [b | b | b]; simpl;
      try (left; eexists; reflexivity);
      apply IH;
      try (right; destruct Htext as [Hr | Hrest];
           [discriminate Hr | exact Hrest]).
    left. destruct (String.ltb b a); reflexivity.
Qed.

(** The range block on validated columns: it returns when the objects
    are numbers and raises a [TypeError] when one is a text. *)
Lemma x_range_outcome tbl x :
  (forall col, In col x -> has_column tbl col = true) ->
  if forallb is_number (value_objects tbl x)
  then exists r, x_range tbl x None = inr r
  else exists msg, x_range tbl x None = inl (TypeError msg).
Proof.
  intros Hall. unfold x_range.
  rewrite extend_x_vals_total by exact Hall. cbn [bind app].
  destruct (value_objects tbl x) as [ | v rest]; [eexists; reflexivity | ].
  destruct (forallb is_number (v :: rest)) eqn:E.
  - simpl in E. apply andb_true_iff in E. destruct E as [Hv Hrest].
    destruct (min_max_numbers less rest v less_numbers Hv Hrest) as (lo & Hlo & Nlo).
    destruct (min_max_numbers greater rest v greater_numbers Hv Hrest)
      as (hi & Hhi & Nhi).
    destruct (minus_half_number lo Nlo) as [flo Hflo].
    destruct (plus_half_number hi Nhi) as [fhi Hfhi].
    unfold object_min, object_max.
    rewrite Hlo. simpl. rewrite Hflo. simpl. rewrite Hhi. simpl. rewrite Hfhi.
    eexists. reflexivity.
  - simpl in E. apply andb_false_iff in E.
    destruct (object_min_text rest v E) as [[msg Hm] | [s Hs]].
    + rewrite Hm. exists msg. reflexivity.
    + rewrite Hs. eexists. reflexivity.
Qed.

Lemma value_columns_checked a col :
  In col (value_columns (Args.x a)) -> In col (checked_columns a).
Proof.
  intros H. unfold checked_columns. apply in_or_app. left. exact H.
Qed.

Lemma range_outcome tbl a :
  first_absent tbl (checked_columns a) = None ->
  if range_computable tbl a
  then exists r, x_range tbl (value_columns (Args.x a)) (Args.xlim a) = inr r
  else exists msg,
      x_range tbl (value_columns (Args.x a)) (Args.xlim a) = inl (TypeError msg).
Proof.
  intros Hnone. unfold range_computable.
  destruct (Args.xlim a) as [r | ]; [exists r; reflexivity | ].
  apply x_range_outcome. intros col Hin.
  apply (proj1 (first_absent_none tbl (checked_columns a)) Hnone).
  apply value_columns_checked. exact Hin.
Qed.

(** After the range block nothing raises. *)
Lemma fragments_follow_range tbl a l :
  match x_range tbl (Locals.x l) (Args.xlim a) with
  | inl e => fragments tbl a l = inl e
  | inr _ => exists v, fragments tbl a l = inr v
  end.
Proof.
  unfold fragments.
  destruct (error_bars (Args.type a) l) as [[lo up] ce].
  destruct (x_range tbl (Locals.x l) (Args.xlim a)) as [e | r]; simpl.
  - reflexivity.
  - eexists. reflexivity.
Qed.

(** The outcome of a call is decided by the validation loops and the
    range block. *)
Lemma js_fragments_outcome tbl a :
  match first_absent tbl (checked_columns a) with
  | Some col => js_fragments tbl a = inl (missing_column col)
  | None =>
      match x_range tbl (value_columns (Args.x a)) (Args.xlim a) with
      | inl e => js_fragments tbl a = inl e
      | inr _ => exists v, js_fragments tbl a = inr v
      end
  end.
Proof.
  pose proof (normalize_outcome tbl a) as Hn.
  destruct (first_absent tbl (checked_columns a)) as [col | ] eqn:E.
  - unfold js_fragments. rewrite Hn. reflexivity.
  - destruct Hn as [l Hl].
    pose proof (normalize_inr _ _ _ Hl) as (_ & Hx & _).
    pose proof (fragments_follow_range tbl a l) as Hf. rewrite Hx in Hf.
    unfold js_fragments. rewrite Hl. simpl bind.
    destruct (x_range tbl (value_columns (Args.x a)) (Args.xlim a)); exact Hf.
Qed.

Lemma sparkline_point_js_outcome template tbl a :
  match first_absent tbl (checked_columns a) with
  | Some col => sparkline_point_js template tbl a = inl (missing_column col)
  | None =>
      match x_range tbl (value_columns (Args.x a)) (Args.xlim a) with
      | inl e => sparkline_point_js template tbl a = inl e
      | inr _ =>
          exists v, js_fragments tbl a = inr v /\
                    sparkline_point_js template tbl a
                    = inr (Tpl.safe_substitute template (Js.kwargs v))
      end
  end.
Proof.
  pose proof (js_fragments_outcome tbl a) as H.
  unfold sparkline_point_js.
  destruct (first_absent tbl (checked_columns a)) as [col | ].
  - rewrite H. reflexivity.
  - destruct (x_range tbl (value_columns (Args.x a)) (Args.xlim a)) as [e | r].
    + rewrite H. reflexivity.
    + destruct H as [v Hv]. exists v. rewrite Hv. split; reflexivity.
Qed.

(** A call returns when its columns are in the frame and its range can
    be computed. *)
Lemma sparkline_point_js_returns template tbl a :
  first_absent tbl (checked_columns a) = None ->
  range_computable tbl a = true ->
  exists v, js_fragments tbl a = inr v /\
            sparkline_point_js template tbl a
            = inr (Tpl.safe_substitute template (Js.kwargs v)).
Proof.
  intros Hnone Hrange.
  pose proof (sparkline_point_js_outcome template tbl a) as Hout.
  pose proof (range_outcome tbl a Hnone) as Hr.
  rewrite Hnone in Hout. rewrite Hrange in Hr. destruct Hr as [r Hr].
  rewrite Hr in Hout. exact Hout.
Qed.

(** With its columns in the frame and a text among its values, a call
    without [xlim] raises a [TypeError]. *)
Lemma sparkline_point_js_type_error template tbl a :
  first_absent tbl (checked_columns a) = None ->
  range_computable tbl a = false ->
  exists msg, sparkline_point_js template tbl a = inl (TypeError msg).
Proof.
  intros Hnone Hrange.
  pose proof (sparkline_point_js_outcome template tbl a) as Hout.
  pose proof (range_outcome tbl a Hnone) as Hr.
  rewrite Hnone in Hout. rewrite Hrange in Hr. destruct Hr as [msg Hr].
  rewrite Hr in Hout. exists msg. exact Hout.
Qed.

(** C2: when a referenced column is absent from the frame, generation
    fails with the missing-column error that names the first absent
    column in declaration order: value columns, then lower-bound columns,
    then upper-bound columns.  A request has one or more value columns. *)
Theorem missing_column_reported template tbl a col :
  value_columns (Args.x a) <> [] ->
  first_absent tbl (referenced_columns a) = Some col ->
  sparkline_point_js template tbl a
  = inl (ValueError ("Column '" ++ col ++ "' not found in DataFrame")).
Proof.
  intros Hx Hcol.
  pose proof (sparkline_point_js_outcome template tbl a) as H.
  rewrite (checked_first_absent tbl a Hx), Hcol in H. exact H.
Qed.

Lemma missing_column_reported_witness :
  sparkline_point_js sample_template example_tbl missing_lower_args
  = inl (ValueError "Column 'stderr' not found in DataFrame").
Proof.
  apply (missing_column_reported sample_template example_tbl missing_lower_args "stderr").
  - discriminate.
  - reflexivity.
Defined.

(** The remaining fields of the keyword record. *)
Lemma fragments_fields tbl a l v :
  fragments tbl a l = inr v ->
  Js.js_y v = join ", " (map str (Locals.y l)) /\
  Js.js_text v = join ", " (Locals.text l) /\
  Js.js_color v = join ", " (map to_rgba (Locals.color l)) /\
  Js.js_legend_label v =
    match Args.legend_label a with
    | Some labels => join ", " (map quoted labels)
    | None => EmptyString
    end.
Proof.
  unfold fragments.
  destruct (error_bars (Args.type a) l) as [[lo up] ce] eqn:E.
  intros H. invert_bind H. simpl.
  repeat split; try reflexivity.
  destruct (Args.legend_label a) as [[ | label labels] | ]; reflexivity.
Qed.

Lemma referenced_present_checked_present tbl a :
  first_absent tbl (referenced_columns a) = None ->
  first_absent tbl (checked_columns a) = None.
Proof.
  rewrite !first_absent_none. intros H col Hin.
  apply H. apply checked_are_referenced. exact Hin.
Qed.

(** ** Lengths of the per-series sequences *)





(** ** Upper bounds without lower bounds *)

(** C9: when the lower-bound columns are omitted and upper-bound columns
    are supplied, the upper-bound names are still validated, so that an
    absent one makes generation fail with the missing-column error, and
    when generation returns the error bars are the zero-length ones.  A
    request has one or more value columns. *)
Theorem upper_bound_validated_then_ignored template tbl a u :
  Args.x_lower a = None ->
  Args.x_upper a = Some u ->
  value_columns (Args.x a) <> [] ->
  (first_absent tbl (value_columns u) <> None ->
   exists col,
     sparkline_point_js template tbl a = inl (missing_column col) /\
     has_column tbl col = false) /\
  (first_absent tbl (value_columns (Args.x a)) = None ->
   forall col,
     first_absent tbl (value_columns u) = Some col ->
     sparkline_point_js template tbl a = inl (missing_column col)) /\
  (first_absent tbl (referenced_columns a) = None ->
   range_computable tbl a = true ->
   exists v,
     js_fragments tbl a = inr v /\
     sparkline_point_js template tbl a
     = inr (Tpl.safe_substitute template (Js.kwargs v))) /\
  (forall v, js_fragments tbl a = inr v ->
             Js.js_x_lower v = "0" /\ Js.js_x_upper v = "0").
Proof.
  intros Hlo Hup Hx.
  pose proof (sparkline_point_js_outcome template tbl a) as Hout.
  rewrite (checked_first_absent tbl a Hx) in Hout.
  assert (Href : first_absent tbl (referenced_columns a) =
                 match first_absent tbl (value_columns (Args.x a)) with
                 | Some col => Some col
                 | None => first_absent tbl (value_columns u)
                 end).
  { unfold referenced_columns. rewrite Hlo, Hup. simpl declared.
    rewrite first_absent_app. reflexivity. }
  split; [ | split; [ | split]].
  - intros Habsent. rewrite Href in Hout.
    destruct (first_absent tbl (value_columns (Args.x a))) as [c | ] eqn:Ex.
    + exists c. split; [exact Hout | ].
      apply first_absent_some in Ex. apply Ex.
    + destruct (first_absent tbl (value_columns u)) as [c | ] eqn:Eu.
      * exists c. split; [exact Hout | ].
        apply first_absent_some in Eu. apply Eu.
      * contradiction Habsent. reflexivity.
  - intros Hxs col Hcol. rewrite Href, Hxs, Hcol in Hout. exact Hout.
  - intros Hpresent Hrange.
    apply sparkline_point_js_returns; [ | exact Hrange].
    apply referenced_present_checked_present. exact Hpresent.
  - intros v Hv.
    apply js_fragments_inr in Hv. destruct Hv as (l & Hn & Hf).
    pose proof (normalize_inr _ _ _ Hn) as (_ & _ & Hl & _).
    apply fragments_inr in Hf. destruct Hf as (_ & Hjl & Hju & _).
    rewrite Hlo in Hl.
    rewrite (error_bars_zero (Args.type a) l (or_introl Hl)) in Hjl, Hju.
    split; assumption.
Qed.

Lemma upper_bound_validated_then_ignored_witness :
  sparkline_point_js sample_template example_tbl upper_only_args
  = inl (missing_column "stderr").
Proof.
  refine (proj1 (proj2 (upper_bound_validated_then_ignored
                          sample_template example_tbl upper_only_args
                          (Str "stderr") _ _ _)) _ "stderr" _);
    try reflexivity.
  discriminate.
Defined.

(** ** The traces in the output *)

Lemma string_app_assoc (s1 s2 s3 : string) : (s1 ++ s2) ++ s3 = s1 ++ s2 ++ s3.
Proof.
  induction s1 as [ | c s1 IH]; simpl; [reflexivity | ].
  rewrite IH. reflexivity.
Qed.

Lemma substitute_chunks_app (t1 t2 : Tpl.Template) kws :
  Tpl.substitute_chunks (t1 ++ t2)%list kws
  = Tpl.substitute_chunks t1 kws ++ Tpl.substitute_chunks t2 kws.
Proof.
  induction t1 as [ | c t1 IH]; simpl; [reflexivity | ].
  rewrite IH, string_app_assoc. reflexivity.
Qed.

(** A placeholder of the template is replaced by its value, in place. *)
Lemma placeholder_substituted template kws braced name value :
  In (Tpl.Placeholder braced name) (Tpl.parse template) ->
  Tpl.lookup kws name = Some value ->
  exists pre post, Tpl.safe_substitute template kws = pre ++ value ++ post.
Proof.
  unfold Tpl.safe_substitute. intros Hin Hval.
  apply in_split in Hin. destruct Hin as (t1 & t2 & ->).
  exists (Tpl.substitute_chunks t1 kws), (Tpl.substitute_chunks t2 kws).
  rewrite substitute_chunks_app. simpl. rewrite Hval. reflexivity.
Qed.

Lemma data_traces_length m n : List.length (data_traces m n) = n.
Proof.
  unfold data_traces. rewrite length_map, length_seq. reflexivity.
Qed.

Lemma data_traces_nth m n i :
  (i < n)%nat -> nth_error (data_traces m n) i = Some (trace m i).
Proof.
  intros Hi. unfold data_traces.
  rewrite nth_error_map, nth_error_seq.
  destruct (Nat.ltb_spec i n) as [_ | Hge]; [reflexivity | lia].
Qed.

Lemma trace_opens m i : exists rest, trace m i = String "{" rest.
Proof. eexists. reflexivity. Qed.

Lemma join_traces_opens m n :
  n <> O -> exists rest, join trace_separator (data_traces m n) = String "{" rest.
Proof.
  intros Hn. destruct n as [ | n]; [contradiction Hn; reflexivity | ].
  unfold data_traces. simpl seq. simpl map.
  destruct (trace_opens m 0) as [rest Hrest]. rewrite Hrest.
  destruct (map (trace m) (seq 1 n)); simpl; eexists; reflexivity.
Qed.

Lemma around_nonempty pre c rest post : pre ++ String c rest ++ post <> EmptyString.
Proof. destruct pre; discriminate. Qed.

(** C3, as stated, fails: the value column is in the frame, yet the
    call fails, because its lower-bound column is not; and a call on a
    text column that is in the frame fails in the range block. *)
Lemma value_column_present_yet_failing :
  (first_absent example_tbl (value_columns (Args.x missing_lower_args)) = None /\
   forall template,
     sparkline_point_js template example_tbl missing_lower_args
     = inl (missing_column "stderr")) /\
  (first_absent mixed_tbl (value_columns (Args.x label_args)) = None /\
   forall template,
     sparkline_point_js template mixed_tbl label_args
     = inl (TypeError "unsupported operand type(s) for -: 'str' and 'float'")).
Proof.
  split; (split; [reflexivity | intros template; reflexivity]).
Qed.

(** C3, amended: when every referenced column (value, lower-bound and
    upper-bound) is in the frame, and the range is given or the non-null
    values of the value columns are numbers, generation returns the
    template with its placeholders replaced; the [data_trace] fragment is
    exactly one trace per value column, in the order of the value
    columns, and with a template that has the [data_trace] placeholder
    the returned string contains that fragment, and is not empty when
    there is at least one value column. *)
Theorem one_trace_per_value_column template tbl a :
  first_absent tbl (referenced_columns a) = None ->
  range_computable tbl a = true ->
  let n := List.length (value_columns (Args.x a)) in
  let traces := data_traces (legend_mode (Args.legend_type a)) n in
  exists v out,
    js_fragments tbl a = inr v /\
    sparkline_point_js template tbl a = inr out /\
    out = Tpl.safe_substitute template (Js.kwargs v) /\
    List.length traces = n /\
    (forall i, (i < n)%nat ->
               nth_error traces i
               = Some (trace (legend_mode (Args.legend_type a)) i)) /\
    Js.data_trace v = join trace_separator traces /\
    (forall braced,
        In (Tpl.Placeholder braced "data_trace") (Tpl.parse template) ->
        (exists pre post, out = pre ++ join trace_separator traces ++ post) /\
        (value_columns (Args.x a) <> [] -> out <> EmptyString)).
Proof.
  intros Hpresent Hrange n traces.
  destruct (sparkline_point_js_returns template tbl a
              (referenced_present_checked_present tbl a Hpresent) Hrange)
    as (v & Hv & Hs).
  destruct (js_fragments_inr _ _ _ Hv) as (l & Hn & Hf).
  pose proof (normalize_inr _ _ _ Hn) as (_ & Hx & _).
  apply fragments_inr in Hf. destruct Hf as (_ & _ & _ & _ & _ & Hdt & _).
  rewrite Hx in Hdt. fold n in Hdt. fold traces in Hdt.
  exists v, (Tpl.safe_substitute template (Js.kwargs v)).
  split; [exact Hv | ]. split; [exact Hs | ]. split; [reflexivity | ].
  split; [apply data_traces_length | ].
  split; [apply data_traces_nth | ].
  split; [exact Hdt | ].
  intros braced Hin.
  destruct (placeholder_substituted template (Js.kwargs v) braced "data_trace"
              (Js.data_trace v) Hin eq_refl) as (pre & post & Hsub).
  rewrite Hdt in Hsub.
  split; [exists pre, post; exact Hsub | ].
  intros Hne. rewrite Hsub.
  destruct (join_traces_opens (legend_mode (Args.legend_type a)) n) as [rest Hrest].
  { subst n. destruct (value_columns (Args.x a)); [contradiction Hne; reflexivity | discriminate]. }
  subst traces. rewrite Hrest. apply around_nonempty.
Qed.

Lemma one_trace_per_value_column_witness :
  exists out,
    sparkline_point_js sample_template example_tbl example_args = inr out /\
    out <> EmptyString.
Proof.
  destruct (one_trace_per_value_column sample_template example_tbl example_args
              eq_refl eq_refl)
    as (v & out & _ & Hout & _ & _ & _ & _ & Hin).
  exists out. split; [exact Hout | ].
  apply (Hin false).
  - vm_compute. tauto.
  - discriminate.
Defined.

(** ** The derived range *)





Section RunningBest.

(** [op item running]: [item] replaces the running item. *)
Variable op : float -> float -> bool.
Hypothesis op_irrefl : forall a, op a a = false.
Hypothesis op_trans :
  forall a b c, op a b = true -> op b c = true -> op a c = true.



End RunningBest.





Lemma normalize_inr_checked tbl a l :
  normalize tbl a = inr l -> first_absent tbl (checked_columns a) = None.
Proof.
  intros Hn. pose proof (normalize_outcome tbl a) as H.
  destruct (first_absent tbl (checked_columns a)); [ | reflexivity].
  rewrite H in Hn. discriminate Hn.
Qed.



(** * Further properties of the code *)

(** ** [to_rgba]: the shape of every result *)

Lemma starts_with_marker s : startswith s "#" = true -> exists h, s = String "#" h.
Proof.
  unfold startswith. destruct s as [ | c s]; [discriminate | ].
  rewrite prefix_cons.
  destruct (ascii_dec "#" c) as [<- | _]; [ | discriminate].
  intros _. exists s. reflexivity.
Qed.

Lemma hex_to_rgba_some s rgba :
  hex_to_rgba s = Some rgba -> exists r g b, rgba = rgba_literal r g b.
Proof.
  unfold hex_to_rgba.
  set (h := if Nat.eqb _ 3 then _ else _).
  destruct (Nat.eqb (String.length h) 6); [ | discriminate].
  destruct (int16 (slice 0 2 h)) as [r | ]; [ | discriminate].
  destruct (int16 (slice 2 4 h)) as [g | ]; [ | discriminate].
  destruct (int16 (slice 4 6 h)) as [b | ]; [ | discriminate].
  intros H. exists r, g, b. congruence.
Qed.

(** X1: every result of [to_rgba] is a text between two double quotes,
    and it is one of three: the [rgba(r, g, b, 1)] literal of a
    descriptor whose trimmed form begins with the marker, the trimmed
    descriptor when its lowercase form starts with [rgb], or the
    descriptor as given. *)
Theorem to_rgba_always_quoted color_name :
  ((exists h r g b,
       strip color_name = String "#" h /\
       to_rgba color_name = rgba_literal r g b)
   \/ (startswith (lower (strip color_name)) "rgb" = true /\
       to_rgba color_name = quoted (strip color_name))
   \/ to_rgba color_name = quoted color_name) /\
  exists body, to_rgba color_name = dq ++ body ++ dq.
Proof.
  assert (H : (exists h r g b,
                  strip color_name = String "#" h /\
                  to_rgba color_name = rgba_literal r g b)
              \/ (startswith (lower (strip color_name)) "rgb" = true /\
                  to_rgba color_name = quoted (strip color_name))
              \/ to_rgba color_name = quoted color_name).
  { unfold to_rgba.
    destruct (startswith (strip color_name) "#") eqn:Em.
    - destruct (starts_with_marker _ Em) as [h Hh].
      destruct (hex_to_rgba (strip color_name)) as [rgba | ] eqn:Eh.
      + destruct (hex_to_rgba_some _ _ Eh) as (r & g & b & ->).
        left. exists h, r, g, b. split; [exact Hh | reflexivity].
      + rewrite Hh, marker_is_not_rgb. right. right. reflexivity.
    - destruct (startswith (lower (strip color_name)) "rgb") eqn:Er.
      + right. left. split; reflexivity.
      + right. right. reflexivity. }
  split; [exact H | ].
  destruct H as [(h & r & g & b & _ & ->) | [[_ ->] | ->]];
    eexists; reflexivity.
Qed.

(** ** [to_rgba]: the case of the hexadecimal digits *)

Lemma hex_value_lower c d :
  hex_value c = Some d -> hex_value (lower_char c) = Some d.
Proof.
  ascii_cases c; intros H; vm_compute in H; try discriminate H;
    injection H as <-; reflexivity.
Qed.

Lemma hex_pair_lower c1 c2 v :
  hex_pair c1 c2 = Some v -> hex_pair (lower_char c1) (lower_char c2) = Some v.
Proof.
  unfold hex_pair.
  destruct (hex_value c1) as [d1 | ] eqn:E1; [ | discriminate].
  destruct (hex_value c2) as [d2 | ] eqn:E2; [ | discriminate].
  rewrite (hex_value_lower _ _ E1), (hex_value_lower _ _ E2).
  intros H. exact H.
Qed.

Lemma hex_pair_not_space c1 c2 v :
  hex_pair c1 c2 = Some v -> isspace c1 = false /\ isspace c2 = false.
Proof.
  unfold hex_pair.
  destruct (hex_value c1) as [d1 | ] eqn:E1; [ | discriminate].
  destruct (hex_value c2) as [d2 | ] eqn:E2; [ | discriminate].
  intros _. split.
  - apply (hex_value_facts _ _ E1).
  - apply (hex_value_facts _ _ E2).
Qed.

Lemma to_rgba_six_hex c1 c2 c3 c4 c5 c6 r g b :
  hex_pair c1 c2 = Some r -> hex_pair c3 c4 = Some g -> hex_pair c5 c6 = Some b ->
  to_rgba (String "#" (string_of_list_ascii [c1; c2; c3; c4; c5; c6]))
  = rgba_literal r g b.
Proof.
  intros Hr Hg Hb.
  apply (to_rgba_hex _ (string_of_list_ascii [c1; c2; c3; c4; c5; c6])).
  - destruct (hex_pair_not_space _ _ _ Hr) as [S1 S2].
    destruct (hex_pair_not_space _ _ _ Hg) as [S3 S4].
    destruct (hex_pair_not_space _ _ _ Hb) as [S5 S6].
    simpl string_of_list_ascii.
    rewrite strip_cons by reflexivity.
    repeat rewrite rstrip_cons by assumption.
    reflexivity.
  - apply hex_to_rgba_six_digits; assumption.
Qed.

Lemma to_rgba_three_hex c1 c2 c3 r g b :
  hex_pair c1 c1 = Some r -> hex_pair c2 c2 = Some g -> hex_pair c3 c3 = Some b ->
  to_rgba (String "#" (string_of_list_ascii [c1; c2; c3])) = rgba_literal r g b.
Proof.
  intros Hr Hg Hb.
  apply (to_rgba_hex _ (string_of_list_ascii [c1; c2; c3])).
  - destruct (hex_pair_not_space _ _ _ Hr) as [S1 _].
    destruct (hex_pair_not_space _ _ _ Hg) as [S2 _].
    destruct (hex_pair_not_space _ _ _ Hb) as [S3 _].
    simpl string_of_list_ascii.
    rewrite strip_cons by reflexivity.
    repeat rewrite rstrip_cons by assumption.
    reflexivity.
  - rewrite hex_to_rgba_three. apply hex_to_rgba_six_digits; assumption.
Qed.

Lemma hex_pair_defined c1 c2 d1 d2 :
  hex_value c1 = Some d1 -> hex_value c2 = Some d2 ->
  hex_pair c1 c2 = Some (16 * d1 + d2).
Proof. intros H1 H2. unfold hex_pair. rewrite H1, H2. reflexivity. Qed.

(** X2: the case of the hexadecimal digits does not matter: a marker
    followed by three or by six hexadecimal digits gives the same colour
    once the descriptor is put in lower case. *)
Theorem hex_case_insensitive h :
  hex_digits_only h = true ->
  String.length h = 3%nat \/ String.length h = 6%nat ->
  to_rgba (lower (String "#" h)) = to_rgba (String "#" h) /\
  exists r g b,
    to_rgba (String "#" h) = rgba_literal r g b /\
    0 <= r <= 255 /\ 0 <= g <= 255 /\ 0 <= b <= 255.
Proof.
  intros Hhex Hlen.
  destruct h as [ | c1 [ | c2 [ | c3 h]]];
    try (destruct Hlen as [Hl | Hl]; discriminate Hl).
  simpl in Hhex.
  destruct (hex_value c1) as [d1 | ] eqn:V1; [ | discriminate].
  destruct (hex_value c2) as [d2 | ] eqn:V2; [ | discriminate].
  destruct (hex_value c3) as [d3 | ] eqn:V3; [ | discriminate].
  destruct h as [ | c4 [ | c5 [ | c6 [ | c7 h]]]];
    try (destruct Hlen as [Hl | Hl]; discriminate Hl).
  - pose proof (hex_pair_defined _ _ _ _ V1 V1) as P1.
    pose proof (hex_pair_defined _ _ _ _ V2 V2) as P2.
    pose proof (hex_pair_defined _ _ _ _ V3 V3) as P3.
    pose proof (to_rgba_three_hex _ _ _ _ _ _ P1 P2 P3) as Hu.
    pose proof (to_rgba_three_hex _ _ _ _ _ _ (hex_pair_lower _ _ _ P1)
                  (hex_pair_lower _ _ _ P2) (hex_pair_lower _ _ _ P3)) as Hl.
    simpl string_of_list_ascii in Hu, Hl.
    split.
    + cbn [lower]. change (lower_char "#") with "#"%char.
      rewrite Hl, Hu. reflexivity.
    + eexists _, _, _. split; [exact Hu | ].
      apply int16_hex_pair in P1, P2, P3. tauto.
  - simpl in Hhex.
    destruct (hex_value c4) as [d4 | ] eqn:V4; [ | discriminate].
    destruct (hex_value c5) as [d5 | ] eqn:V5; [ | discriminate].
    destruct (hex_value c6) as [d6 | ] eqn:V6; [ | discriminate].
    pose proof (hex_pair_defined _ _ _ _ V1 V2) as P1.
    pose proof (hex_pair_defined _ _ _ _ V3 V4) as P2.
    pose proof (hex_pair_defined _ _ _ _ V5 V6) as P3.
    pose proof (to_rgba_six_hex _ _ _ _ _ _ _ _ _ P1 P2 P3) as Hu.
    pose proof (to_rgba_six_hex _ _ _ _ _ _ _ _ _ (hex_pair_lower _ _ _ P1)
                  (hex_pair_lower _ _ _ P2) (hex_pair_lower _ _ _ P3)) as Hl.
    simpl string_of_list_ascii in Hu, Hl.
    split.
    + cbn [lower]. change (lower_char "#") with "#"%char.
      rewrite Hl, Hu. reflexivity.
    + eexists _, _, _. split; [exact Hu | ].
      apply int16_hex_pair in P1, P2, P3. tauto.
Qed.

Lemma hex_case_insensitive_witness :
  to_rgba "#ffd700" = to_rgba "#FFD700" /\ to_rgba "#abc" = to_rgba "#ABC".
Proof.
  split.
  - exact (proj1 (hex_case_insensitive "FFD700" eq_refl (or_intror eq_refl))).
  - exact (proj1 (hex_case_insensitive "ABC" eq_refl (or_introl eq_refl))).
Defined.

(** ** [to_rgba]: the white space around a descriptor *)

Lemma rstrip_idempotent s : rstrip (rstrip s) = rstrip s.
Proof.
  induction s as [ | c s IH]; [reflexivity | ].
  simpl. destruct (rstrip s) as [ | d r] eqn:E.
  - destruct (isspace c) eqn:Ec; [reflexivity | ].
    simpl. rewrite Ec. reflexivity.
  - change (rstrip (String c (String d r))
            = String c (String d r)).
    simpl rstrip at 1.
    change (match rstrip r with
            | EmptyString => if isspace d then EmptyString else String d EmptyString
            | String a s0 => String d (String a s0)
            end) with (rstrip (String d r)).
    rewrite IH. reflexivity.
Qed.

Lemma lstrip_head s :
  lstrip s = EmptyString \/
  exists c r, lstrip s = String c r /\ isspace c = false.
Proof.
  induction s as [ | c s IH]; simpl; [left; reflexivity | ].
  destruct (isspace c) eqn:E; [exact IH | ].
  right. exists c, s. split; [reflexivity | exact E].
Qed.

Lemma strip_idempotent s : strip (strip s) = strip s.
Proof.
  unfold strip at 2 3.
  destruct (lstrip_head s) as [-> | (c & r & -> & Hc)]; [reflexivity | ].
  rewrite rstrip_cons by exact Hc.
  rewrite strip_cons by exact Hc.
  rewrite rstrip_idempotent. reflexivity.
Qed.

(** X3: the white space around a descriptor matters only when the
    descriptor is passed through as given: trimming it first changes
    nothing for a descriptor that is converted from hexadecimal or
    starts with [rgb], and otherwise both results are the quoted
    argument. *)
Theorem white_space_only_kept_in_passthrough color_name :
  to_rgba (strip color_name) = to_rgba color_name \/
  (to_rgba color_name = quoted color_name /\
   to_rgba (strip color_name) = quoted (strip color_name)).
Proof.
  unfold to_rgba. rewrite strip_idempotent.
  destruct (if startswith (strip color_name) "#"
            then hex_to_rgba (strip color_name) else None) as [rgba | ].
  - left. reflexivity.
  - destruct (startswith (lower (strip color_name)) "rgb").
    + left. reflexivity.
    + right. split; reflexivity.
Qed.

(** ** Bounds, colours and offsets of a call that returns *)

(** The keyword record of a call that returns, field by field. *)
Lemma fragments_record tbl a l v :
  fragments tbl a l = inr v ->
  exists xlim,
    x_range tbl (Locals.x l) (Args.xlim a) = inr xlim /\
    v = Js.make
          (if String.eqb (Args.type a) "cell" then cell_rows (Locals.x l)
           else indices (List.length (Locals.color l)))
          (join ", " (map str (Locals.y l)))
          (fst (fst (error_bars (Args.type a) l)))
          (snd (fst (error_bars (Args.type a) l)))
          (str (fst xlim) ++ ", " ++ str (snd xlim))
          ("0, " ++ str_int (Z.of_nat (List.length (Locals.x l) + 1)))
          (match Args.vline a with Some p => str p | None => "[]" end)
          (join ", " (Locals.text l))
          (str (Args.height a))
          (str (Args.width a))
          (join ", " (map to_rgba (Locals.color l)))
          (join ", " (map to_rgba (snd (error_bars (Args.type a) l))))
          (to_rgba (Args.color_vline a))
          (join ", " (map str_int (Locals.margin l)))
          (Args.xlab a)
          (if Args.legend a then "true" else "false")
          (Args.legend_title a)
          (str (Args.legend_position a))
          (match Args.legend_label a with
           | Some (label :: labels) => join ", " (map quoted (label :: labels))
           | _ => EmptyString
           end)
          (join trace_separator
             (data_traces (legend_mode (Args.legend_type a))
                (List.length (Locals.x l)))).
Proof.
  unfold fragments.
  destruct (error_bars (Args.type a) l) as [[lo up] ce] eqn:E.
  intros H. invert_bind H. exists a0. split; [assumption | reflexivity].
Qed.

Lemma error_bars_drawn type l lo :
  Locals.x_lower l = Some lo ->
  footer_or_header type = false ->
  error_bars type l =
  (cell_rows lo,
   cell_rows (match Locals.x_upper l with Some u => u | None => [] end),
   Locals.color_errorbar l).
Proof.
  intros Hlo Hty. unfold error_bars. rewrite Hlo, Hty. reflexivity.
Qed.

(** X4: in a context that draws error bars, with lower-bound columns
    given, the lower fragment reads those columns row by row; the upper
    fragment is the same text when no upper-bound columns are given, and
    reads the upper-bound columns when they are. *)
Theorem upper_bound_defaults_to_lower tbl a lo v :
  Args.x_lower a = Some lo ->
  footer_or_header (Args.type a) = false ->
  js_fragments tbl a = inr v ->
  let n := List.length (value_columns (Args.x a)) in
  Js.js_x_lower v = cell_rows (broadcast n lo) /\
  (Args.x_upper a = None -> Js.js_x_upper v = Js.js_x_lower v) /\
  (forall u, Args.x_upper a = Some u ->
             Js.js_x_upper v = cell_rows (broadcast n u)).
Proof.
  intros Hlo Hty H n.
  apply js_fragments_inr in H. destruct H as (l & Hn & Hf).
  pose proof (normalize_inr _ _ _ Hn) as (_ & _ & Hl & Hu & _).
  apply fragments_inr in Hf. destruct Hf as (_ & Hjl & Hju & _).
  rewrite Hlo in Hl, Hu. simpl in Hl. fold n in Hl, Hu.
  rewrite (error_bars_drawn _ _ _ Hl Hty) in Hjl, Hju.
  simpl in Hjl, Hju.
  split; [exact Hjl | ].
  split.
  - intros Hnone. rewrite Hnone in Hu. simpl in Hu.
    rewrite Hu in Hju. rewrite Hju, Hjl. reflexivity.
  - intros u Hsome. rewrite Hsome in Hu. simpl in Hu.
    rewrite Hu in Hju. exact Hju.
Qed.

Lemma upper_bound_defaults_to_lower_witness :
  exists v,
    js_fragments example_tbl example_args = inr v /\
    Js.js_x_upper v = Js.js_x_lower v.
Proof.
  assert (Hv : exists v, js_fragments example_tbl example_args = inr v).
  { eexists. vm_compute. reflexivity. }
  destruct Hv as [v Hv]. exists v. split; [exact Hv | ].
  apply (upper_bound_defaults_to_lower example_tbl example_args (Str "error") v
           eq_refl eq_refl Hv).
  reflexivity.
Defined.

(** X5: in a context that draws error bars, with lower-bound columns
    given, the error bars take the colours of the points when no
    error-bar colour is given, and the translated error-bar colours when
    one is. *)
Theorem errorbar_color_defaults_to_color tbl a lo v :
  Args.x_lower a = Some lo ->
  footer_or_header (Args.type a) = false ->
  js_fragments tbl a = inr v ->
  (Args.color_errorbar a = None -> Js.js_color_errorbar v = Js.js_color v) /\
  (forall c, Args.color_errorbar a = Some c ->
             Js.js_color_errorbar v
             = join ", " (map to_rgba
                            (broadcast (List.length (value_columns (Args.x a))) c))).
Proof.
  intros Hlo Hty H.
  apply js_fragments_inr in H. destruct H as (l & Hn & Hf).
  pose proof (normalize_inr _ _ _ Hn) as (_ & _ & Hl & _ & Hc & Hce & _).
  pose proof (fragments_fields _ _ _ _ Hf) as (_ & _ & Hjc & _).
  apply fragments_inr in Hf. destruct Hf as (_ & _ & _ & Hjce & _).
  rewrite Hlo in Hl. simpl in Hl.
  rewrite (error_bars_drawn _ _ _ Hl Hty) in Hjce. simpl in Hjce.
  split.
  - intros Hnone. rewrite Hnone in Hce.
    rewrite Hjce, Hjc, Hce, Hc. reflexivity.
  - intros c Hsome. rewrite Hsome in Hce. rewrite Hjce, Hce. reflexivity.
Qed.

Lemma errorbar_color_defaults_to_color_witness :
  exists v,
    js_fragments example_tbl example_args = inr v /\
    Js.js_color_errorbar v = Js.js_color v.
Proof.
  assert (Hv : exists v, js_fragments example_tbl example_args = inr v).
  { eexists. vm_compute. reflexivity. }
  destruct Hv as [v Hv]. exists v. split; [exact Hv | ].
  apply (errorbar_color_defaults_to_color example_tbl example_args (Str "error") v
           eq_refl eq_refl Hv).
  reflexivity.
Defined.

Lemma broadcast_scalar_length n s : List.length (broadcast n (Str s)) = n.
Proof. simpl. apply repeat_length. Qed.

(** X6: scalar and omitted per-series arguments cover every series:
    after normalization the colours, the error-bar colours, the hover
    texts, the vertical offsets and the bound columns that come from a
    scalar or from a default have one entry per value column. *)
Theorem scalars_cover_every_series tbl a l :
  normalize tbl a = inr l ->
  let n := List.length (value_columns (Args.x a)) in
  List.length (Locals.x l) = n /\
  (forall s, Args.color a = Str s -> List.length (Locals.color l) = n) /\
  (forall s, Args.color_errorbar a = Some (Str s) ->
             List.length (Locals.color_errorbar l) = n) /\
  (Args.color_errorbar a = None ->
   List.length (Locals.color_errorbar l) = List.length (Locals.color l)) /\
  (Args.text a = None -> List.length (Locals.text l) = n) /\
  (forall s, Args.text a = Some (Str s) -> List.length (Locals.text l) = n) /\
  (Args.y a = None -> List.length (Locals.y l) = n) /\
  (forall s, Args.x_lower a = Some (Str s) ->
             exists cols, Locals.x_lower l = Some cols /\ List.length cols = n) /\
  (forall s, Args.x_upper a = Some (Str s) ->
             exists cols, Locals.x_upper l = Some cols /\ List.length cols = n) /\
  (forall s, Args.x_upper a = None -> Args.x_lower a = Some (Str s) ->
             exists cols, Locals.x_upper l = Some cols /\ List.length cols = n).
Proof.
  intros Hn n.
  pose proof (normalize_inr _ _ _ Hn)
    as (_ & Hx & Hlo & Hup & Hc & Hce & Hy & Ht).
  fold n in Hlo, Hup, Hc, Hce, Hy, Ht.
  split; [rewrite Hx; reflexivity | ].
  split; [intros s Hs; rewrite Hc, Hs; apply broadcast_scalar_length | ].
  split; [intros s Hs; rewrite Hce, Hs; apply broadcast_scalar_length | ].
  split; [intros Hs; rewrite Hce, Hs, Hc; reflexivity | ].
  split; [intros Hs; rewrite Ht, Hs; apply repeat_length | ].
  split; [intros s Hs; rewrite Ht, Hs; apply broadcast_scalar_length | ].
  split.
  { intros Hs. rewrite Hy, Hs. unfold one_to.
    rewrite length_map, length_seq. reflexivity. }
  split.
  { intros s Hs. rewrite Hlo, Hs. eexists. split; [reflexivity | ].
    apply broadcast_scalar_length. }
  split.
  { intros s Hs. rewrite Hup, Hs. eexists. split; [reflexivity | ].
    apply broadcast_scalar_length. }
  intros s Hnone Hs. rewrite Hup, Hnone, Hs. eexists. split; [reflexivity | ].
  apply broadcast_scalar_length.
Qed.

Lemma scalars_cover_every_series_witness :
  exists l,
    normalize example_tbl example_args = inr l /\
    List.length (Locals.color l) = 1%nat /\
    List.length (Locals.text l) = 1%nat.
Proof.
  assert (Hl : exists l, normalize example_tbl example_args = inr l).
  { eexists. vm_compute. reflexivity. }
  destruct Hl as [l Hl]. exists l. split; [exact Hl | ].
  pose proof (scalars_cover_every_series example_tbl example_args l Hl)
    as (_ & Hc & _ & _ & Ht & _).
  split; [apply (Hc "#FFD700"); reflexivity | apply Ht; reflexivity].
Defined.

(** X7: a scalar colour is translated and written once per value
    column, a scalar hover text is written once per value column, and an
    omitted hover text is written as one pair of double quotes per value
    column. *)
Theorem scalars_written_once_per_series tbl a v :
  js_fragments tbl a = inr v ->
  let n := List.length (value_columns (Args.x a)) in
  (forall s, Args.color a = Str s ->
             Js.js_color v = join ", " (repeat (to_rgba s) n)) /\
  (forall s, Args.text a = Some (Str s) ->
             Js.js_text v = join ", " (repeat s n)) /\
  (Args.text a = None -> Js.js_text v = join ", " (repeat (dq ++ dq) n)).
Proof.
  intros H n.
  apply js_fragments_inr in H. destruct H as (l & Hn & Hf).
  pose proof (normalize_inr _ _ _ Hn) as (_ & _ & _ & _ & Hc & _ & _ & Ht).
  fold n in Hc, Ht.
  apply fragments_fields in Hf. destruct Hf as (_ & Hjt & Hjc & _).
  split; [ | split].
  - intros s Hs. rewrite Hjc, Hc, Hs. simpl broadcast.
    rewrite map_repeat. reflexivity.
  - intros s Hs. rewrite Hjt, Ht, Hs. reflexivity.
  - intros Hs. rewrite Hjt, Ht, Hs. reflexivity.
Qed.

Lemma scalars_written_once_per_series_witness :
  exists v,
    js_fragments example_tbl mismatched_args = inr v /\
    Js.js_text v = dq ++ dq ++ ", " ++ dq ++ dq.
Proof.
  assert (Hv : exists v, js_fragments example_tbl mismatched_args = inr v).
  { eexists. vm_compute. reflexivity. }
  destruct Hv as [v Hv]. exists v. split; [exact Hv | ].
  apply (scalars_written_once_per_series example_tbl mismatched_args v Hv).
  reflexivity.
Defined.

(** X8: the vertical range is [0, n + 1] for [n] value columns whatever
    the offsets; omitted offsets are written as [1, ..., n], each inside
    that range, and given offsets are written as they are. *)
Theorem default_offsets_inside_range tbl a v :
  js_fragments tbl a = inr v ->
  let n := List.length (value_columns (Args.x a)) in
  Js.js_y_range v = "0, " ++ str_int (Z.of_nat (n + 1)) /\
  (Args.y a = None ->
   Js.js_y v = join ", " (map (fun k => str_int (Z.of_nat k)) (seq 1 n)) /\
   forall k, In k (seq 1 n) -> (0 < k < n + 1)%nat) /\
  (forall ys, Args.y a = Some ys -> Js.js_y v = join ", " (map str ys)).
Proof.
  intros H n.
  apply js_fragments_inr in H. destruct H as (l & Hn & Hf).
  pose proof (normalize_inr _ _ _ Hn) as (_ & Hx & _ & _ & _ & _ & Hy & _).
  fold n in Hy.
  destruct (fragments_record _ _ _ _ Hf) as (xlim & _ & ->). simpl.
  rewrite Hx, Hy. fold n.
  split; [reflexivity | ].
  split.
  - intros Hnone. rewrite Hnone. split.
    + unfold one_to. rewrite map_map. reflexivity.
    + intros k Hk. apply in_seq in Hk. lia.
  - intros ys Hys. rewrite Hys. reflexivity.
Qed.

Lemma default_offsets_inside_range_witness :
  exists v,
    js_fragments example_tbl mismatched_args = inr v /\
    Js.js_y_range v = "0, 3" /\ Js.js_y v = "1, 2".
Proof.
  assert (Hv : exists v, js_fragments example_tbl mismatched_args = inr v).
  { eexists. vm_compute. reflexivity. }
  destruct Hv as [v Hv]. exists v. split; [exact Hv | ].
  pose proof (default_offsets_inside_range example_tbl mismatched_args v Hv)
    as (Hr & Hy & _).
  split; [exact Hr | exact (proj1 (Hy eq_refl))].
Defined.

(** ** What the range and the traces depend on *)

(** X9: the horizontal range depends on the frame, the value columns and
    [xlim] only: two calls that agree on these write the same range,
    whatever their bound columns, so that error bars are not taken into
    account; an explicit [xlim] is written as given. *)
Theorem range_ignores_bounds tbl a a' v v' :
  Args.x a = Args.x a' ->
  Args.xlim a = Args.xlim a' ->
  js_fragments tbl a = inr v ->
  js_fragments tbl a' = inr v' ->
  Js.js_x_range v = Js.js_x_range v' /\
  (forall lo hi, Args.xlim a = Some (lo, hi) ->
                 Js.js_x_range v = str lo ++ ", " ++ str hi).
Proof.
  intros Hx Hlim H H'.
  apply js_fragments_inr in H. destruct H as (l & Hn & Hf).
  apply js_fragments_inr in H'. destruct H' as (l' & Hn' & Hf').
  pose proof (normalize_inr _ _ _ Hn) as (_ & Hlx & _).
  pose proof (normalize_inr _ _ _ Hn') as (_ & Hlx' & _).
  apply fragments_inr in Hf.
  destruct Hf as (_ & _ & _ & _ & _ & _ & xlim & Hr & Hjr).
  apply fragments_inr in Hf'.
  destruct Hf' as (_ & _ & _ & _ & _ & _ & xlim' & Hr' & Hjr').
  rewrite Hlx in Hr. rewrite Hlx', <- Hx, <- Hlim in Hr'.
  split.
  - rewrite Hr in Hr'. injection Hr' as <-. rewrite Hjr, Hjr'. reflexivity.
  - intros lo hi Hsome. rewrite Hsome in Hr. simpl in Hr.
    unfold ret in Hr. injection Hr as <-. exact Hjr.
Qed.

Lemma range_ignores_bounds_witness :
  exists v v',
    js_fragments example_tbl example_args = inr v /\
    js_fragments example_tbl plain_args = inr v' /\
    Js.js_x_range v = Js.js_x_range v'.
Proof.
  assert (Hv : exists v, js_fragments example_tbl example_args = inr v).
  { eexists. vm_compute. reflexivity. }
  assert (Hv' : exists v, js_fragments example_tbl plain_args = inr v).
  { eexists. vm_compute. reflexivity. }
  destruct Hv as [v Hv], Hv' as [v' Hv']. exists v, v'.
  split; [exact Hv | ]. split; [exact Hv' | ].
  exact (proj1 (range_ignores_bounds example_tbl example_args plain_args v v'
                  eq_refl eq_refl Hv Hv')).
Defined.

(** X10: the traces depend on the number of value columns and on the
    mode of the legend type only, not on the frame, the column names or
    the colours; a legend type that is neither ["line"] nor
    ["point+line"] gives the traces of ["point"]. *)
Theorem traces_depend_on_count_and_mode tbl tbl' a a' v v' :
  List.length (value_columns (Args.x a)) = List.length (value_columns (Args.x a')) ->
  legend_mode (Args.legend_type a) = legend_mode (Args.legend_type a') ->
  js_fragments tbl a = inr v ->
  js_fragments tbl' a' = inr v' ->
  Js.data_trace v = Js.data_trace v' /\
  (Args.legend_type a <> "line" -> Args.legend_type a <> "point+line" ->
   Js.data_trace v
   = join trace_separator
       (data_traces "markers" (List.length (value_columns (Args.x a))))).
Proof.
  intros Hlen Hmode H H'.
  apply js_fragments_inr in H. destruct H as (l & Hn & Hf).
  apply js_fragments_inr in H'. destruct H' as (l' & Hn' & Hf').
  pose proof (normalize_inr _ _ _ Hn) as (_ & Hlx & _).
  pose proof (normalize_inr _ _ _ Hn') as (_ & Hlx' & _).
  apply fragments_inr in Hf. destruct Hf as (_ & _ & _ & _ & _ & Hdt & _).
  apply fragments_inr in Hf'. destruct Hf' as (_ & _ & _ & _ & _ & Hdt' & _).
  rewrite Hlx in Hdt. rewrite Hlx', <- Hlen, <- Hmode in Hdt'.
  split; [rewrite Hdt, Hdt'; reflexivity | ].
  intros Hline Hboth. rewrite Hdt. unfold legend_mode.
  apply String.eqb_neq in Hline. apply String.eqb_neq in Hboth.
  rewrite Hline, Hboth.
  destruct (String.eqb (Args.legend_type a) "point"); reflexivity.
Qed.

Lemma traces_depend_on_count_and_mode_witness :
  exists v v',
    js_fragments example_tbl example_args = inr v /\
    js_fragments example_tbl footer_args = inr v' /\
    Js.data_trace v = Js.data_trace v'.
Proof.
  assert (Hv : exists v, js_fragments example_tbl example_args = inr v).
  { eexists. vm_compute. reflexivity. }
  assert (Hv' : exists v, js_fragments example_tbl footer_args = inr v).
  { eexists. vm_compute. reflexivity. }
  destruct Hv as [v Hv], Hv' as [v' Hv']. exists v, v'.
  split; [exact Hv | ]. split; [exact Hv' | ].
  exact (proj1 (traces_depend_on_count_and_mode example_tbl example_tbl
                  example_args footer_args v v' eq_refl eq_refl Hv Hv')).
Defined.

(** ** The braces of the traces *)

Lemma count_char_app c s1 s2 :
  count_char c (s1 ++ s2) = (count_char c s1 + count_char c s2)%nat.
Proof.
  induction s1 as [ | c' s1 IH]; simpl; [reflexivity | ].
  rewrite IH. lia.
Qed.

Lemma no_brace_in_digits c (d : Decimal.uint) :
  c = "{"%char \/ c = "}"%char ->
  count_char c (NilEmpty.string_of_uint d) = O.
Proof.
  intros [-> | ->]; induction d; simpl; auto.
Qed.

Lemma no_brace_in_index c i :
  c = "{"%char \/ c = "}"%char ->
  count_char c (str_int (Z.of_nat i)) = O.
Proof.
  intros Hc. unfold str_int.
  destruct (Z.of_nat i) as [ | p | p] eqn:E; simpl.
  - destruct Hc as [-> | ->]; reflexivity.
  - apply no_brace_in_digits. exact Hc.
  - lia.
Qed.

Lemma no_brace_in_mode c legend_type :
  c = "{"%char \/ c = "}"%char ->
  count_char c (legend_mode legend_type) = O.
Proof.
  intros [-> | ->]; unfold legend_mode;
    destruct (String.eqb legend_type "point");
    destruct (String.eqb legend_type "line");
    destruct (String.eqb legend_type "point+line"); reflexivity.
Qed.

Lemma trace_braces c m i :
  c = "{"%char \/ c = "}"%char ->
  count_char c m = O ->
  count_char c (trace m i) = 5%nat.
Proof.
  intros Hc Hm.
  pose proof (no_brace_in_index c i Hc) as HI.
  unfold trace, quoted. cbn [join].
  set (I := str_int (Z.of_nat i)) in *.
  repeat rewrite count_char_app.
  rewrite ?HI, ?Hm.
  destruct Hc as [-> | ->]; reflexivity.
Qed.

Lemma join_count c sep k l :
  count_char c sep = O ->
  (forall s, In s l -> count_char c s = k) ->
  count_char c (join sep l) = (k * List.length l)%nat.
Proof.
  intros Hsep.
  induction l as [ | s l IH]; intros Hall; [simpl; lia | ].
  assert (Hs : count_char c s = k) by (apply Hall; left; reflexivity).
  assert (IH' : count_char c (join sep l) = (k * List.length l)%nat).
  { apply IH. intros t Ht. apply Hall. right. exact Ht. }
  destruct l as [ | s' l'].
  - simpl. rewrite Hs. lia.
  - change (join sep (s :: s' :: l')) with (s ++ sep ++ join sep (s' :: l')).
    rewrite !count_char_app, Hs, Hsep, IH'. simpl List.length. lia.
Qed.

(** X11: the traces are balanced: the [data_trace] fragment of a call
    that returns has five opening and five closing braces for each value
    column. *)
Theorem traces_brace_balanced tbl a v :
  js_fragments tbl a = inr v ->
  let n := List.length (value_columns (Args.x a)) in
  count_char "{" (Js.data_trace v) = (5 * n)%nat /\
  count_char "}" (Js.data_trace v) = (5 * n)%nat.
Proof.
  intros H n.
  apply js_fragments_inr in H. destruct H as (l & Hn & Hf).
  pose proof (normalize_inr _ _ _ Hn) as (_ & Hx & _).
  apply fragments_inr in Hf. destruct Hf as (_ & _ & _ & _ & _ & Hdt & _).
  rewrite Hx in Hdt. fold n in Hdt. rewrite Hdt.
  assert (Hcount : forall c, c = "{"%char \/ c = "}"%char ->
            count_char c (join trace_separator
                            (data_traces (legend_mode (Args.legend_type a)) n))
            = (5 * n)%nat).
  { intros c Hc.
    rewrite (join_count c trace_separator 5).
    - rewrite data_traces_length. reflexivity.
    - destruct Hc as [-> | ->]; reflexivity.
    - intros s Hs. unfold data_traces in Hs. apply in_map_iff in Hs.
      destruct Hs as (i & <- & _).
      apply trace_braces; [exact Hc | ].
      apply no_brace_in_mode. exact Hc. }
  split; apply Hcount; [left | right]; reflexivity.
Qed.

Lemma traces_brace_balanced_witness :
  exists v,
    js_fragments example_tbl mismatched_args = inr v /\
    count_char "{" (Js.data_trace v) = 10%nat.
Proof.
  assert (Hv : exists v, js_fragments example_tbl mismatched_args = inr v).
  { eexists. vm_compute. reflexivity. }
  destruct Hv as [v Hv]. exists v. split; [exact Hv | ].
  exact (proj1 (traces_brace_balanced example_tbl mismatched_args v Hv)).
Defined.

(** ** When a call returns *)

(** X12: a call returns exactly when every column the validation loops
    go through is in the frame and the range block has what it needs, an
    explicit [xlim] or value columns whose non-null cells are all
    numbers; with the columns in the frame and a text among those cells
    it raises a [TypeError].  Nothing else matters: not the template, the
    colours or the other arguments. *)
Theorem returns_iff_columns_present template tbl a :
  ((exists out, sparkline_point_js template tbl a = inr out) <->
   (forall col, In col (checked_columns a) -> has_column tbl col = true) /\
   range_computable tbl a = true) /\
  ((forall col, In col (checked_columns a) -> has_column tbl col = true) ->
   range_computable tbl a = false ->
   exists msg, sparkline_point_js template tbl a = inl (TypeError msg)).
Proof.
  rewrite <- first_absent_none.
  split.
  - split.
    + intros [out H].
      pose proof (sparkline_point_js_outcome template tbl a) as Hout.
      destruct (first_absent tbl (checked_columns a)) as [col | ] eqn:E.
      * rewrite Hout in H. discriminate H.
      * split; [reflexivity | ].
        destruct (range_computable tbl a) eqn:Er; [reflexivity | ].
        destruct (sparkline_point_js_type_error template tbl a E Er) as [msg Hm].
        rewrite Hm in H. discriminate H.
    + intros [Hnone Hrange].
      destruct (sparkline_point_js_returns template tbl a Hnone Hrange)
        as (v & _ & H).
      eexists. exact H.
  - apply sparkline_point_js_type_error.
Qed.

(** ** The template *)

Lemma is_dollar_eqb c : Tpl.is_dollar c = Ascii.eqb "$" c.
Proof. ascii_cases c; reflexivity. Qed.

Lemma substitute_literal c t kws :
  Tpl.substitute_chunks (Tpl.literal c t) kws
  = String c (Tpl.substitute_chunks t kws).
Proof.
  destruct t as [ | [s | braced name] t]; reflexivity.
Qed.

Lemma plain_text_unchanged text kws :
  count_char "$" text = O -> Tpl.safe_substitute text kws = text.
Proof.
  unfold Tpl.safe_substitute, Tpl.parse.
  induction text as [ | c text IH]; intros H; [reflexivity | ].
  cbn [count_char] in H. cbn [Tpl.scan]. rewrite is_dollar_eqb.
  destruct (Ascii.eqb "$" c); [discriminate H | ].
  rewrite substitute_literal, IH by exact H. reflexivity.
Qed.

(** X13: a template without a dollar sign is what every call that
    returns gives back, and a call returns when its referenced columns
    are in the frame and its range is given or computed from numbers. *)
Theorem plain_template_returned template tbl a :
  count_char "$" template = O ->
  (forall out, sparkline_point_js template tbl a = inr out -> out = template) /\
  (first_absent tbl (referenced_columns a) = None ->
   range_computable tbl a = true ->
   sparkline_point_js template tbl a = inr template).
Proof.
  intros Hplain. split.
  - intros out H. apply sparkline_point_js_inr in H.
    destruct H as (v & _ & ->). apply plain_text_unchanged. exact Hplain.
  - intros Hpresent Hrange.
    destruct (sparkline_point_js_returns template tbl a
                (referenced_present_checked_present tbl a Hpresent) Hrange)
      as (v & _ & H).
    rewrite H, plain_text_unchanged by exact Hplain. reflexivity.
Qed.

Lemma plain_template_returned_witness :
  sparkline_point_js "function(cell, state) { return null; }" example_tbl example_args
  = inr "function(cell, state) { return null; }".
Proof.
  apply plain_template_returned; reflexivity.
Defined.




(** ** The caller [create_minimal_example] *)

(** X15: whatever the template, [create_minimal_example] raises nothing:
    it prints the length of the generated code, writes [test.html] with
    the generated code between the two fixed parts of the page, and
    prints its last line. *)
Theorem create_minimal_example_returns template :
  exists js_code,
    sparkline_point_js template example_tbl example_args = inr js_code /\
    create_minimal_example template
    = inr [ Print ("Generated " ++ str_int (Z.of_nat (String.length js_code))
                   ++ " characters of JavaScript");
            WriteFile "test.html" (html_head ++ js_code ++ html_tail);
            Print "Created test.html" ].
Proof.
  destruct (sparkline_point_js_returns template example_tbl example_args
              eq_refl eq_refl) as (v & _ & H).
  eexists. split; [exact H | ].
  unfold create_minimal_example. rewrite H. reflexivity.
Qed.
